(** * FloorPlanTo3D: the staged generation orchestrator and the model prober

    A shallow embedding of [src/services/geminiService.ts] and of the
    [handleGenerate] handler of [src/App.tsx].

    The service is asynchronous TypeScript that talks to three outside
    parties: the Gemini SDK client ([ai.models.generateContent],
    [ai.models.list]), the wall clock ([Date.now]) and the React state of
    the page (the [useState] setters handed in as callbacks).  Every
    [await] is a suspension point of a single thread of control, so the
    code is embedded in a state-and-exception monad: the state carries
    the outside world, the React state and a trace of the observable
    calls; an exception is a thrown JavaScript value.

    Left out: the module-level check of [VITE_GEMINI_API_KEY] (it runs
    once, before any of the exported functions can be called), the
    presentational components, and the two stand-alone scripts that
    test API keys from the command line. *)

From Stdlib Require Import String List ZArith Lia.
Import ListNotations.
Open Scope string_scope.
Open Scope list_scope.

(** ** JavaScript values *)

(** A thrown value.  The handlers of the source all test
    [err instanceof Error], so both kinds are kept apart. *)
Inductive JsThrown : Type :=
| JsError (message : string)
| JsOther (repr : string).

(** [err instanceof Error ? err.message : fallback] *)
Definition messageOr (fallback : string) (err : JsThrown) : string :=
  match err with
  | JsError message => message
  | JsOther _ => fallback
  end.

(** What a template literal prints for a [string | undefined]. *)
Definition interpolate (v : option string) : string :=
  match v with
  | Some s => s
  | None => "undefined"
  end.

(** Truthiness of a [string | undefined]: [undefined] and the empty
    string are falsy. *)
Definition truthy (v : option string) : bool :=
  match v with
  | Some (String _ _) => true
  | _ => false
  end.

(** [type LoadingStep = 'idle' | 'analyzingStyle' | 'analyzingPlan' | 'generatingImage'] *)
Inductive LoadingStep : Type :=
| idle
| analyzingStyle
| analyzingPlan
| generatingImage.

(** ** The SDK's data, as far as the service reads or builds it *)

(** A browser [File]: its media type and its raw content. *)
Record File : Type := { type : string; payload : string }.

Record Blob : Type := { data : option string; mimeType : option string }.

(** The SDK's [Part]; its [text] field is called [partText] here, the
    name [text] being taken by the response. *)
Record Part : Type := { partText : option string; inlineData : option Blob }.

Record Content : Type := { parts : option (list Part) }.

Record Candidate : Type := { content : option Content }.

(** The response of the SDK.  [text] is what [response.text] evaluates
    to; the service reads it next to [candidates] and never derives one
    from the other. *)
Record GenerateContentResponse : Type :=
  { text : option string; candidates : option (list Candidate) }.

(** [contents] is an array of contents in stages 1 and 2 and a single
    content in stage 3 and in the probe. *)
Inductive ContentListUnion : Type :=
| ContentArray (cs : list Content)
| ContentSingle (c : Content).

Record GenerateContentParameters : Type :=
  { model : string; contents : ContentListUnion }.

Record Model : Type :=
  { name : string; supportedGenerationMethods : list string }.

(** [export interface ModelTestResult] *)
Record ModelTestResult : Type :=
  { modelName : string;
    supportsImageGeneration : bool;
    error : option string;
    responseTime : option Z }.

(** The [useState] cells of [App] that [handleGenerate] reads or writes. *)
Module AppState.
Record t : Type :=
  { floorPlanImage : option File;
    referenceImage : option File;
    generatedImage : option string;
    loadingStep : LoadingStep;
    error : option string }.

Definition withGeneratedImage (v : option string) (st : t) : t :=
  {| floorPlanImage := floorPlanImage st;
     referenceImage := referenceImage st;
     generatedImage := v;
     loadingStep := loadingStep st;
     error := error st |}.

Definition withLoadingStep (v : LoadingStep) (st : t) : t :=
  {| floorPlanImage := floorPlanImage st;
     referenceImage := referenceImage st;
     generatedImage := generatedImage st;
     loadingStep := v;
     error := error st |}.

Definition withError (v : option string) (st : t) : t :=
  {| floorPlanImage := floorPlanImage st;
     referenceImage := referenceImage st;
     generatedImage := generatedImage st;
     loadingStep := loadingStep st;
     error := v |}.
End AppState.

(** ** The outside world *)

(** Everything the service calls but does not define.  [World] is the
    state of the remote endpoint and of the clock; a call may answer,
    throw, and change the world.  [fileToBase64] comes from
    [../utils/fileUtils]; reading a given file either yields its
    encoding or rejects. *)
Record Backend : Type :=
  { World : Type;
    models_generateContent :
      GenerateContentParameters -> World -> (JsThrown + GenerateContentResponse) * World;
    models_list : World -> (JsThrown + list Model) * World;
    Date_now : World -> Z * World;
    fileToBase64 : File -> JsThrown + string }.

(** The prompt texts of [src/constants.ts].  The service passes them on
    without looking inside, so they are kept abstract. *)
Record Prompts : Type :=
  { STYLE_EXTRACTION_PROMPT : string;
    FLOOR_PLAN_ANALYSIS_PROMPT : string;
    getFinalPromptTemplate : string -> string -> string }.

(** What an observer of one run can see, in the order it happens. *)
Inductive Event : Type :=
| EvSetLoadingStep (step : LoadingStep)
| EvSetGeneratedImage (v : option string)
| EvSetError (v : option string)
| EvGenerateContent (req : GenerateContentParameters)
| EvModelsList
| EvConsoleLog (msg : string)
| EvConsoleError (msg : string) (err : JsThrown).

Fixpoint stageCalls (tr : list Event) : list LoadingStep :=
  match tr with
  | [] => []
  | EvSetLoadingStep step :: rest => step :: stageCalls rest
  | _ :: rest => stageCalls rest
  end.

Fixpoint generateCalls (tr : list Event) : list GenerateContentParameters :=
  match tr with
  | [] => []
  | EvGenerateContent req :: rest => req :: generateCalls rest
  | _ :: rest => generateCalls rest
  end.

Fixpoint deliveredImages (tr : list Event) : list string :=
  match tr with
  | [] => []
  | EvSetGeneratedImage (Some uri) :: rest => uri :: deliveredImages rest
  | _ :: rest => deliveredImages rest
  end.

(** [m.startsWith(p)] *)
Definition startsWith (m p : string) : bool := String.prefix p m.

(** [methods.includes(x)] *)
Definition includes (methods : list string) (x : string) : bool :=
  existsb (String.eqb x) methods.

Section Service.

Variable B : Backend.
Variable P : Prompts.

(** ** The monad of the embedding *)

Record Machine : Type :=
  { world : World B; trace : list Event; ui : AppState.t }.

Definition M (A : Type) : Type := Machine -> (JsThrown + A) * Machine.

Definition ret {A} (a : A) : M A := fun s => (inr a, s).

Definition bind {A C} (m : M A) (k : A -> M C) : M C :=
  fun s =>
    match m s with
    | (inr a, s') => k a s'
    | (inl err, s') => (inl err, s')
    end.

Definition throw {A} (err : JsThrown) : M A := fun s => (inl err, s).

(** [try { body } catch (err) { handler }] *)
Definition tryCatch {A} (body : M A) (handler : JsThrown -> M A) : M A :=
  fun s =>
    match body s with
    | (inr a, s') => (inr a, s')
    | (inl err, s') => handler err s'
    end.

Notation "x <- m ;; k" := (bind m (fun x => k))
  (at level 61, m at next level, right associativity).
Notation "m ;;; k" := (bind m (fun _ => k))
  (at level 61, right associativity).

Definition emit (ev : Event) : M unit :=
  fun s => (inr tt, {| world := world s; trace := trace s ++ [ev]; ui := ui s |}).

Definition updateUi (f : AppState.t -> AppState.t) : M unit :=
  fun s => (inr tt, {| world := world s; trace := trace s; ui := f (ui s) |}).

Definition readUi : M AppState.t := fun s => (inr (ui s), s).

(** A call that crosses the boundary: it is answered by the world. *)
Definition ask {A} (call : World B -> (JsThrown + A) * World B) : M A :=
  fun s =>
    let '(answer, w) := call (world s) in
    (answer, {| world := w; trace := trace s; ui := ui s |}).

(** ** The primitives the source calls *)

Definition ai_models_generateContent (req : GenerateContentParameters)
  : M GenerateContentResponse :=
  emit (EvGenerateContent req) ;;; ask (models_generateContent B req).

Definition ai_models_list : M (list Model) :=
  emit EvModelsList ;;; ask (models_list B).

Definition Date_dot_now : M Z :=
  ask (fun w => let '(t, w') := Date_now B w in (inr t, w')).

Definition await_fileToBase64 (file : File) : M string :=
  fun s => (fileToBase64 B file, s).

Definition console_log (msg : string) : M unit := emit (EvConsoleLog msg).

Definition console_error (msg : string) (err : JsThrown) : M unit :=
  emit (EvConsoleError msg err).

(** The React setters of [App]. *)
Definition setLoadingStep (step : LoadingStep) : M unit :=
  emit (EvSetLoadingStep step) ;;; updateUi (AppState.withLoadingStep step).

Definition setGeneratedImage (v : option string) : M unit :=
  emit (EvSetGeneratedImage v) ;;; updateUi (AppState.withGeneratedImage v).

Definition setError (v : option string) : M unit :=
  emit (EvSetError v) ;;; updateUi (AppState.withError v).

(** ** [geminiService.ts] *)

(** [const model = "gemini-3-pro-image-preview"] *)
Definition configuredModel : string := "gemini-3-pro-image-preview".

Definition textPart (s : string) : Part :=
  {| partText := Some s; inlineData := None |}.

Definition fileToGenerativePart (file : File) : M Part :=
  base64EncodedData <- await_fileToBase64 file ;;
  ret {| partText := None;
         inlineData := Some {| data := Some base64EncodedData;
                               mimeType := Some (type file) |} |}.

(** [response.candidates?.[0]?.content?.parts] *)
Definition firstCandidateParts (response : GenerateContentResponse)
  : option (list Part) :=
  match candidates response with
  | Some (candidate :: _) =>
      match content candidate with
      | Some c => parts c
      | None => None
      end
  | _ => None
  end.

(** [response.candidates?.[0]?.content?.parts || []] *)
Definition partsOrEmpty (response : GenerateContentResponse) : list Part :=
  match firstCandidateParts response with
  | Some ps => ps
  | None => []
  end.

Definition dataUri (b : Blob) : string :=
  "data:" ++ interpolate (mimeType b) ++ ";base64," ++ interpolate (data b).

Definition styleRequest (referenceImagePart : Part) : GenerateContentParameters :=
  {| model := configuredModel;
     contents := ContentArray
       [ {| parts := Some [textPart (STYLE_EXTRACTION_PROMPT P); referenceImagePart] |} ] |}.

Definition planRequest (floorPlanPart : Part) : GenerateContentParameters :=
  {| model := configuredModel;
     contents := ContentArray
       [ {| parts := Some [textPart (FLOOR_PLAN_ANALYSIS_PROMPT P); floorPlanPart] |} ] |}.

Definition finalRequest (floorPlanPart : Part) (finalPrompt : string)
  : GenerateContentParameters :=
  {| model := configuredModel;
     contents := ContentSingle
       {| parts := Some [floorPlanPart; textPart finalPrompt] |} |}.

(** The [for (const part of ...)] loop at the end of
    [generateVirtualStaging], together with the [throw] that follows
    it: the first part with a truthy [inlineData] is handed to
    [onResult] and the function returns; a loop that runs out reaches
    the [throw]. *)
Fixpoint extractImage (onResult : string -> M unit) (ps : list Part) : M unit :=
  match ps with
  | [] => throw (JsError "No image was generated. The model may have refused the request.")
  | part :: rest =>
      match inlineData part with
      | Some blob => onResult (dataUri blob)
      | None => extractImage onResult rest
      end
  end.

Definition generateVirtualStaging
    (floorPlanFile referenceImageFile : File)
    (setLoadingStep : LoadingStep -> M unit)
    (onResult : string -> M unit) : M unit :=
  (* Step 1: Analyze Reference Image Style *)
  setLoadingStep analyzingStyle ;;;
  referenceImagePart <- fileToGenerativePart referenceImageFile ;;
  styleResponse <- ai_models_generateContent (styleRequest referenceImagePart) ;;
  let styleDescription := text styleResponse in
  if negb (truthy styleDescription)
  then throw (JsError "Could not extract style from reference image.")
  else
  (* Step 2: Analyze Floor Plan Architecture *)
  setLoadingStep analyzingPlan ;;;
  floorPlanPart <- fileToGenerativePart floorPlanFile ;;
  floorPlanResponse <- ai_models_generateContent (planRequest floorPlanPart) ;;
  let floorPlanAnalysis := text floorPlanResponse in
  if negb (truthy floorPlanAnalysis)
  then throw (JsError "Could not analyze the floor plan image.")
  else
  (* Step 3: Construct Final Prompt and Generate Image; both texts are
     truthy here, so [interpolate] hands them on as they are *)
  setLoadingStep generatingImage ;;;
  let finalPrompt :=
    getFinalPromptTemplate P (interpolate styleDescription)
                             (interpolate floorPlanAnalysis) in
  finalResponse <- ai_models_generateContent (finalRequest floorPlanPart finalPrompt) ;;
  (* Extract the generated image *)
  extractImage onResult (partsOrEmpty finalResponse).

(** The [for (const model of models)] loop of [listAvailableModels];
    [modelNames] is the array built so far. *)
Fixpoint collectModelNames (models : list Model) (modelNames : list string)
  : list string :=
  match models with
  | [] => modelNames
  | m :: rest =>
      if includes (supportedGenerationMethods m) "generateContent"
      then collectModelNames rest (modelNames ++ [name m])
      else collectModelNames rest modelNames
  end.

Definition listAvailableModels : M (list string) :=
  tryCatch
    (models <- ai_models_list ;;
     let modelNames := collectModelNames models [] in
     if (length modelNames =? 0)%nat
     then ret ["No models supporting 'generateContent' found for your API key."]
     else ret modelNames)
    (fun err =>
       console_error "Error listing models:" err ;;;
       match err with
       | JsError message => ret [("Error listing models: " ++ message)%string]
       | JsOther _ => ret ["An unknown error occurred while listing models."]
       end).

Definition testPrompt : string :=
  "Generate a simple geometric shape: a blue circle on a white background.".

Definition probeRequest (modelName : string) : GenerateContentParameters :=
  {| model := modelName;
     contents := ContentSingle {| parts := Some [textPart testPrompt] |} |}.

(** [response.candidates?.[0]?.content?.parts?.some(part => part.inlineData !== undefined)];
    [None] is the [undefined] of a broken chain. *)
Definition hasImageOf (response : GenerateContentResponse) : option bool :=
  match firstCandidateParts response with
  | Some ps =>
      Some (existsb (fun part => match inlineData part with
                                 | Some _ => true
                                 | None => false
                                 end) ps)
  | None => None
  end.

Definition testImageGenerationModel (modelName : string) : M ModelTestResult :=
  startTime <- Date_dot_now ;;
  tryCatch
    (response <- ai_models_generateContent (probeRequest modelName) ;;
     now <- Date_dot_now ;;
     let responseTime := (now - startTime)%Z in
     let hasImage := hasImageOf response in
     match hasImage with
     | Some true =>
         ret {| modelName := modelName;
                supportsImageGeneration := true;
                error := None;
                responseTime := Some responseTime |}
     | _ =>
         ret {| modelName := modelName;
                supportsImageGeneration := false;
                error := Some "Model responded but did not generate an image";
                responseTime := Some responseTime |}
     end)
    (fun err =>
       now <- Date_dot_now ;;
       let responseTime := (now - startTime)%Z in
       ret {| modelName := modelName;
              supportsImageGeneration := false;
              error := Some (messageOr "Unknown error" err);
              responseTime := Some responseTime |}).

(** [m => !m.startsWith('Error') && !m.startsWith('No models')] *)
Definition isValidModel (m : string) : bool :=
  negb (startsWith m "Error") && negb (startsWith m "No models").

(** The [for (const modelName of validModels)] loop of
    [testAllModelsForImageGeneration]; [results] is the array built so
    far. *)
Fixpoint probeEach (validModels : list string) (results : list ModelTestResult)
  : M (list ModelTestResult) :=
  match validModels with
  | [] => ret results
  | modelName :: rest =>
      console_log ("Testing model: " ++ modelName) ;;;
      result <- testImageGenerationModel modelName ;;
      probeEach rest (results ++ [result])
  end.

Definition testAllModelsForImageGeneration : M (list ModelTestResult) :=
  models <- listAvailableModels ;;
  (* Filter out error messages *)
  let validModels := filter isValidModel models in
  if (length validModels =? 0)%nat
  then ret []
  else probeEach validModels [].

(** ** [App.tsx] *)

(** The result callback [handleGenerate] hands to the service. *)
Definition appOnResult (imageResult : string) : M unit :=
  setGeneratedImage (Some imageResult) ;;;
  setLoadingStep idle.

Definition handleGenerate : M unit :=
  st <- readUi ;;
  match AppState.floorPlanImage st, AppState.referenceImage st with
  | Some floorPlanImage, Some referenceImage =>
      setError None ;;;
      setGeneratedImage None ;;;
      tryCatch
        (generateVirtualStaging floorPlanImage referenceImage
           setLoadingStep appOnResult)
        (fun err =>
           console_error "" err ;;;
           setError (Some (messageOr "An unknown error occurred." err)) ;;;
           setLoadingStep idle)
  | _, _ =>
      setError (Some "Please upload both a floor plan and a reference image.")
  end.

End Service.

Arguments world {B} _.
Arguments trace {B} _.
Arguments ui {B} _.
Arguments Build_Machine {B} _ _ _.

(** * Properties *)

(** ** Traces *)

Lemma stageCalls_app (a b : list Event) :
  stageCalls (a ++ b) = stageCalls a ++ stageCalls b.
Proof.
  induction a as [| ev a IH]; simpl; [reflexivity |].
  destruct ev; simpl; rewrite IH; reflexivity.
Qed.

Lemma generateCalls_app (a b : list Event) :
  generateCalls (a ++ b) = generateCalls a ++ generateCalls b.
Proof.
  induction a as [| ev a IH]; simpl; [reflexivity |].
  destruct ev; simpl; rewrite IH; reflexivity.
Qed.

Lemma deliveredImages_app (a b : list Event) :
  deliveredImages (a ++ b) = deliveredImages a ++ deliveredImages b.
Proof.
  induction a as [| ev a IH]; simpl; [reflexivity |].
  destruct ev as [ | [uri |] | | | | | ]; simpl; rewrite IH; reflexivity.
Qed.

(** ** The staged generation orchestrator *)

Section Orchestrator.

Variable B : Backend.
Variable P : Prompts.

(** The part [fileToGenerativePart] builds from an encoded file. *)
Definition encodedPart (base64EncodedData : string) (file : File) : Part :=
  {| partText := None;
     inlineData := Some {| data := Some base64EncodedData;
                           mimeType := Some (type file) |} |}.

(** [blob] is the inline data of the first part of [ps] that has any. *)
Definition firstInlineData (ps : list Part) (blob : Blob) : Prop :=
  exists pre p post,
    ps = pre ++ p :: post /\
    Forall (fun q => inlineData q = None) pre /\
    inlineData p = Some blob.

Definition noInlineData (ps : list Part) : Prop :=
  Forall (fun q => inlineData q = None) ps.

Lemma extractImage_first (onResult : string -> M B unit) ps blob :
  firstInlineData ps blob ->
  extractImage B onResult ps = onResult (dataUri blob).
Proof.
  intros (pre & p & post & -> & Hpre & Hp).
  induction Hpre as [| q pre Hq _ IH]; simpl.
  - rewrite Hp. reflexivity.
  - rewrite Hq. exact IH.
Qed.

Lemma extractImage_none (onResult : string -> M B unit) ps :
  noInlineData ps ->
  extractImage B onResult ps =
  throw B (JsError "No image was generated. The model may have refused the request.").
Proof.
  induction 1 as [| q ps Hq _ IH]; simpl; [reflexivity |].
  rewrite Hq. exact IH.
Qed.

(** Every list of parts falls under one of the two cases. *)
Lemma inlineData_cases (ps : list Part) :
  noInlineData ps \/ exists blob, firstInlineData ps blob.
Proof.
  induction ps as [| p ps IH].
  - left. constructor.
  - destruct (inlineData p) as [blob |] eqn:Hp.
    + right. exists blob, [], p, ps. repeat split; [constructor | exact Hp].
    + destruct IH as [Hnone | (blob & pre & q & post & -> & Hpre & Hq)].
      * left. constructor; assumption.
      * right. exists blob, (p :: pre), q, post.
        repeat split; [constructor; assumption | exact Hq].
Qed.

(** The trace the orchestrator itself leaves when it gets as far as its
    third call. *)
Definition threeStages (req1 req2 req3 : GenerateContentParameters) : list Event :=
  [ EvSetLoadingStep analyzingStyle; EvGenerateContent req1;
    EvSetLoadingStep analyzingPlan; EvGenerateContent req2;
    EvSetLoadingStep generatingImage; EvGenerateContent req3 ].

(** With both texts in hand and the third call answered, a run is the
    scan of the third response, started after the six events. *)
Lemma generateVirtualStaging_reaches_scan
    (fp ref : File) (onResult : string -> M B unit) (s : Machine B)
    b64r b64f r1 w1 r2 w2 r3 w3 :
  fileToBase64 B ref = inr b64r ->
  fileToBase64 B fp = inr b64f ->
  let req1 := styleRequest P (encodedPart b64r ref) in
  let req2 := planRequest P (encodedPart b64f fp) in
  let req3 := finalRequest (encodedPart b64f fp)
                (getFinalPromptTemplate P (interpolate (text r1)) (interpolate (text r2))) in
  models_generateContent B req1 (world s) = (inr r1, w1) ->
  truthy (text r1) = true ->
  models_generateContent B req2 w1 = (inr r2, w2) ->
  truthy (text r2) = true ->
  models_generateContent B req3 w2 = (inr r3, w3) ->
  generateVirtualStaging B P fp ref (setLoadingStep B) onResult s =
  extractImage B onResult (partsOrEmpty r3)
    {| world := w3;
       trace := trace s ++ threeStages req1 req2 req3;
       ui := AppState.withLoadingStep generatingImage (ui s) |}.
Proof.
  intros Href Hfp req1 req2 req3 H1 T1 H2 T2 H3.
  unfold generateVirtualStaging, fileToGenerativePart, await_fileToBase64,
    ai_models_generateContent, setLoadingStep, ask, emit, updateUi, bind, ret.
  rewrite Href. cbn [world trace ui].
  fold (encodedPart b64r ref). fold req1. rewrite H1.
  cbn [world trace ui]. rewrite T1. cbn [negb].
  rewrite Hfp. cbn [world trace ui].
  fold (encodedPart b64f fp). fold req2. rewrite H2.
  cbn [world trace ui]. rewrite T2. cbn [negb world trace ui].
  fold req3. rewrite H3. cbn [world trace ui].
  unfold threeStages.
  repeat rewrite <- app_assoc. reflexivity.
Qed.

(** The part of the state a failing run leaves alone: the image cell
    and the images delivered so far. *)
Definition nothingDelivered (s s1 : Machine B) : Prop :=
  AppState.generatedImage (ui s1) = AppState.generatedImage (ui s) /\
  AppState.error (ui s1) = AppState.error (ui s) /\
  deliveredImages (trace s1) = deliveredImages (trace s).

(** The first stage goes through from world [w]: the reference image is
    encoded and the style call answers [r1], with text, leaving [w1]. *)
Definition styleAnswered (ref : File) (w : World B)
    (r1 : GenerateContentResponse) (w1 : World B) : Prop :=
  exists b64r,
    fileToBase64 B ref = inr b64r /\
    models_generateContent B (styleRequest P (encodedPart b64r ref)) w = (inr r1, w1) /\
    truthy (text r1) = true.

(** The second stage goes through from world [w1]. *)
Definition planAnswered (fp : File) (w1 : World B) (b64f : string)
    (r2 : GenerateContentResponse) (w2 : World B) : Prop :=
  fileToBase64 B fp = inr b64f /\
  models_generateContent B (planRequest P (encodedPart b64f fp)) w1 = (inr r2, w2) /\
  truthy (text r2) = true.

(** The steps at which a run started in world [w] can fail, each with
    the value that step raises and the world it leaves behind. *)
Inductive StepFails (fp ref : File) (w : World B) : JsThrown -> World B -> Prop :=
| ReferenceUnreadable err :
    fileToBase64 B ref = inl err ->
    StepFails fp ref w err w
| StyleCallThrows b64r err w1 :
    fileToBase64 B ref = inr b64r ->
    models_generateContent B (styleRequest P (encodedPart b64r ref)) w = (inl err, w1) ->
    StepFails fp ref w err w1
| StyleTextEmpty b64r r1 w1 :
    fileToBase64 B ref = inr b64r ->
    models_generateContent B (styleRequest P (encodedPart b64r ref)) w = (inr r1, w1) ->
    truthy (text r1) = false ->
    StepFails fp ref w
      (JsError "Could not extract style from reference image.") w1
| PlanUnreadable r1 w1 err :
    styleAnswered ref w r1 w1 ->
    fileToBase64 B fp = inl err ->
    StepFails fp ref w err w1
| PlanCallThrows r1 w1 b64f err w2 :
    styleAnswered ref w r1 w1 ->
    fileToBase64 B fp = inr b64f ->
    models_generateContent B (planRequest P (encodedPart b64f fp)) w1 = (inl err, w2) ->
    StepFails fp ref w err w2
| PlanTextEmpty r1 w1 b64f r2 w2 :
    styleAnswered ref w r1 w1 ->
    fileToBase64 B fp = inr b64f ->
    models_generateContent B (planRequest P (encodedPart b64f fp)) w1 = (inr r2, w2) ->
    truthy (text r2) = false ->
    StepFails fp ref w (JsError "Could not analyze the floor plan image.") w2
| FinalCallThrows r1 w1 b64f r2 w2 err w3 :
    styleAnswered ref w r1 w1 ->
    planAnswered fp w1 b64f r2 w2 ->
    models_generateContent B
      (finalRequest (encodedPart b64f fp)
         (getFinalPromptTemplate P (interpolate (text r1)) (interpolate (text r2))))
      w2 = (inl err, w3) ->
    StepFails fp ref w err w3
| NoImageReturned r1 w1 b64f r2 w2 r3 w3 :
    styleAnswered ref w r1 w1 ->
    planAnswered fp w1 b64f r2 w2 ->
    models_generateContent B
      (finalRequest (encodedPart b64f fp)
         (getFinalPromptTemplate P (interpolate (text r1)) (interpolate (text r2))))
      w2 = (inr r3, w3) ->
    noInlineData (partsOrEmpty r3) ->
    StepFails fp ref w
      (JsError "No image was generated. The model may have refused the request.") w3.

Ltac unfold_run :=
  unfold generateVirtualStaging, fileToGenerativePart, await_fileToBase64,
    ai_models_generateContent, setLoadingStep, ask, emit, updateUi, bind, ret, throw.

Ltac stops_here :=
  eexists _, _; split; [repeat rewrite <- app_assoc; reflexivity | reflexivity].

(** A step that fails makes the run throw what that step raised,
    whatever the result callback is: the callback is not reached, and
    only stage and call events are left behind. *)
Lemma generateVirtualStaging_fails_at_step
    (fp ref : File) (onResult : string -> M B unit) (s : Machine B) err w' :
  StepFails fp ref (world s) err w' ->
  exists evs step,
    generateVirtualStaging B P fp ref (setLoadingStep B) onResult s =
    (inl err,
     {| world := w';
        trace := trace s ++ evs;
        ui := AppState.withLoadingStep step (ui s) |}) /\
    deliveredImages evs = [].
Proof.
  unfold styleAnswered, planAnswered, encodedPart.
  intros Hstep.
  destruct Hstep
    as [ err Href
       | b64r err w1 Href H1
       | b64r r1 w1 Href H1 T1
       | r1 w1 err (b64r & Href & H1 & T1) Hfp
       | r1 w1 b64f err w2 (b64r & Href & H1 & T1) Hfp H2
       | r1 w1 b64f r2 w2 (b64r & Href & H1 & T1) Hfp H2 T2
       | r1 w1 b64f r2 w2 err w3 (b64r & Href & H1 & T1) (Hfp & H2 & T2) H3
       | r1 w1 b64f r2 w2 r3 w3 (b64r & Href & H1 & T1) (Hfp & H2 & T2) H3 Hnone ];
    unfold_run; unfold encodedPart in *; cbn [world trace ui].
  - rewrite Href. cbn [world trace ui]. stops_here.
  - rewrite Href. cbn [world trace ui]. rewrite H1. cbn [world trace ui]. stops_here.
  - rewrite Href. cbn [world trace ui]. rewrite H1. cbn [world trace ui].
    rewrite T1. cbn [negb]. stops_here.
  - rewrite Href. cbn [world trace ui]. rewrite H1. cbn [world trace ui].
    rewrite T1. cbn [negb]. rewrite Hfp. cbn [world trace ui]. stops_here.
  - rewrite Href. cbn [world trace ui]. rewrite H1. cbn [world trace ui].
    rewrite T1. cbn [negb]. rewrite Hfp. cbn [world trace ui].
    rewrite H2. cbn [world trace ui]. stops_here.
  - rewrite Href. cbn [world trace ui]. rewrite H1. cbn [world trace ui].
    rewrite T1. cbn [negb]. rewrite Hfp. cbn [world trace ui].
    rewrite H2. cbn [world trace ui]. rewrite T2. cbn [negb]. stops_here.
  - rewrite Href. cbn [world trace ui]. rewrite H1. cbn [world trace ui].
    rewrite T1. cbn [negb]. rewrite Hfp. cbn [world trace ui].
    rewrite H2. cbn [world trace ui]. rewrite T2. cbn [negb world trace ui].
    rewrite H3. cbn [world trace ui]. stops_here.
  - rewrite Href. cbn [world trace ui]. rewrite H1. cbn [world trace ui].
    rewrite T1. cbn [negb]. rewrite Hfp. cbn [world trace ui].
    rewrite H2. cbn [world trace ui]. rewrite T2. cbn [negb world trace ui].
    rewrite H3. cbn [world trace ui].
    rewrite (extractImage_none onResult _ Hnone). unfold throw. stops_here.
Qed.

(** Conversely, a run that throws failed at one of these steps, with
    this value. *)
Lemma generateVirtualStaging_failed_step
    (fp ref : File) (onResult : string -> M B unit) (s s1 : Machine B) err :
  (forall uri s0, fst (onResult uri s0) = inr tt) ->
  generateVirtualStaging B P fp ref (setLoadingStep B) onResult s = (inl err, s1) ->
  StepFails fp ref (world s) err (world s1).
Proof.
  intros Hcb. unfold_run. cbn [world trace ui].
  destruct (fileToBase64 B ref) as [e0 | b64r] eqn:Href; cbn [world trace ui].
  { intros [= <- <-]. cbn [world]. apply ReferenceUnreadable. exact Href. }
  fold (encodedPart b64r ref).
  destruct (models_generateContent B _ (world s)) as [[e1 | r1] w1] eqn:H1;
    cbn [world trace ui].
  { intros [= <- <-]. cbn [world]. exact (StyleCallThrows _ _ _ _ _ _ Href H1). }
  destruct (truthy (text r1)) eqn:T1; cbn [negb].
  2:{ intros [= <- <-]. cbn [world]. exact (StyleTextEmpty _ _ _ _ _ _ Href H1 T1). }
  assert (Hstyle : styleAnswered ref (world s) r1 w1)
    by (exists b64r; repeat split; assumption).
  destruct (fileToBase64 B fp) as [e2 | b64f] eqn:Hfp; cbn [world trace ui].
  { intros [= <- <-]. cbn [world]. exact (PlanUnreadable _ _ _ _ _ _ Hstyle Hfp). }
  fold (encodedPart b64f fp).
  destruct (models_generateContent B _ w1) as [[e3 | r2] w2] eqn:H2;
    cbn [world trace ui].
  { intros [= <- <-]. cbn [world].
    exact (PlanCallThrows _ _ _ _ _ _ _ _ Hstyle Hfp H2). }
  destruct (truthy (text r2)) eqn:T2; cbn [negb].
  2:{ intros [= <- <-]. cbn [world].
      exact (PlanTextEmpty _ _ _ _ _ _ _ _ Hstyle Hfp H2 T2). }
  assert (Hplan : planAnswered fp w1 b64f r2 w2) by (repeat split; assumption).
  cbn [world trace ui].
  destruct (models_generateContent B _ w2) as [[e4 | r3] w3] eqn:H3;
    cbn [world trace ui].
  { intros [= <- <-]. cbn [world].
    exact (FinalCallThrows _ _ _ _ _ _ _ _ _ _ Hstyle Hplan H3). }
  destruct (inlineData_cases (partsOrEmpty r3)) as [Hnone | (blob & Hblob)].
  - rewrite (extractImage_none onResult _ Hnone). unfold throw.
    intros [= <- <-]. cbn [world].
    exact (NoImageReturned _ _ _ _ _ _ _ _ _ _ Hstyle Hplan H3 Hnone).
  - rewrite (extractImage_first onResult _ _ Hblob). intros Hrun.
    match type of Hrun with ?run = _ =>
      assert (Hok : fst run = inr tt) by apply Hcb
    end.
    rewrite Hrun in Hok. discriminate Hok.
Qed.

(** The result callback of [App] never throws. *)
Lemma appOnResult_run (imageResult : string) (s : Machine B) :
  appOnResult B imageResult s =
  (inr tt,
   {| world := world s;
      trace := trace s ++ [EvSetGeneratedImage (Some imageResult); EvSetLoadingStep idle];
      ui := AppState.withLoadingStep idle
              (AppState.withGeneratedImage (Some imageResult) (ui s)) |}).
Proof.
  unfold appOnResult, setGeneratedImage, setLoadingStep, emit, updateUi, bind.
  cbn [world trace ui]. rewrite <- app_assoc. reflexivity.
Qed.

(** The state in which [handleGenerate] starts the orchestrator: after
    [setError(null)] and [setGeneratedImage(null)]. *)
Definition runStart (s : Machine B) : Machine B :=
  {| world := world s;
     trace := trace s ++ [EvSetError None; EvSetGeneratedImage None];
     ui := AppState.withGeneratedImage None (AppState.withError None (ui s)) |}.

Lemma handleGenerate_run (fp ref : File) (s : Machine B) :
  AppState.floorPlanImage (ui s) = Some fp ->
  AppState.referenceImage (ui s) = Some ref ->
  handleGenerate B P s =
  tryCatch B
    (generateVirtualStaging B P fp ref (setLoadingStep B) (appOnResult B))
    (fun err =>
       bind B (console_error B "" err) (fun _ =>
       bind B (setError B (Some (messageOr "An unknown error occurred." err))) (fun _ =>
       setLoadingStep B idle)))
    (runStart s).
Proof.
  intros Hfp Href.
  unfold handleGenerate, readUi, bind at 1. rewrite Hfp, Href.
  unfold bind at 1, setError at 1, bind at 1, emit at 1.
  unfold updateUi at 1, bind at 1, setGeneratedImage, bind at 1, emit at 1.
  unfold updateUi at 1. cbn [world trace ui].
  rewrite <- app_assoc. reflexivity.
Qed.


(** C1. In every run of [generateVirtualStaging] with both images
    encoded and all three calls succeeding (non-empty text from the
    first two, an inline image from the third), the stage callback is
    invoked with [analyzingStyle], [analyzingPlan], [generatingImage],
    in that order and each right before its generation call, nothing
    else happens in between, and only then is the image handed to the
    result callback. *)
Theorem generateVirtualStaging_stage_sequence
    (fp ref : File) (onResult : string -> M B unit) (s : Machine B)
    b64r b64f r1 w1 r2 w2 r3 w3 blob :
  fileToBase64 B ref = inr b64r ->
  fileToBase64 B fp = inr b64f ->
  let req1 := styleRequest P (encodedPart b64r ref) in
  let req2 := planRequest P (encodedPart b64f fp) in
  let req3 := finalRequest (encodedPart b64f fp)
                (getFinalPromptTemplate P (interpolate (text r1)) (interpolate (text r2))) in
  models_generateContent B req1 (world s) = (inr r1, w1) ->
  truthy (text r1) = true ->
  models_generateContent B req2 w1 = (inr r2, w2) ->
  truthy (text r2) = true ->
  models_generateContent B req3 w2 = (inr r3, w3) ->
  firstInlineData (partsOrEmpty r3) blob ->
  let s3 :=
    {| world := w3;
       trace := trace s ++
         [ EvSetLoadingStep analyzingStyle; EvGenerateContent req1;
           EvSetLoadingStep analyzingPlan; EvGenerateContent req2;
           EvSetLoadingStep generatingImage; EvGenerateContent req3 ];
       ui := AppState.withLoadingStep generatingImage (ui s) |} in
  generateVirtualStaging B P fp ref (setLoadingStep B) onResult s =
    onResult (dataUri blob) s3 /\
  stageCalls (trace s3) =
    stageCalls (trace s) ++ [analyzingStyle; analyzingPlan; generatingImage].
Proof.
  intros Href Hfp req1 req2 req3 H1 T1 H2 T2 H3 Himg s3.
  split.
  - rewrite (generateVirtualStaging_reaches_scan fp ref onResult s
               b64r b64f r1 w1 r2 w2 r3 w3 Href Hfp H1 T1 H2 T2 H3).
    rewrite (extractImage_first onResult _ _ Himg). reflexivity.
  - unfold s3. cbn [trace]. rewrite stageCalls_app. reflexivity.
Qed.

(** C3. Once the third call has answered, the parts of the response are
    scanned in order: the first part with inline data decides the run,
    which hands [data:<mimeType>;base64,<data>] built from that part to
    the result callback; when no part has inline data the run throws
    the no-image error, whatever the text of the response is. *)
Theorem generateVirtualStaging_image_extraction
    (fp ref : File) (onResult : string -> M B unit) (s : Machine B)
    b64r b64f r1 w1 r2 w2 r3 w3 :
  fileToBase64 B ref = inr b64r ->
  fileToBase64 B fp = inr b64f ->
  let req1 := styleRequest P (encodedPart b64r ref) in
  let req2 := planRequest P (encodedPart b64f fp) in
  let req3 := finalRequest (encodedPart b64f fp)
                (getFinalPromptTemplate P (interpolate (text r1)) (interpolate (text r2))) in
  models_generateContent B req1 (world s) = (inr r1, w1) ->
  truthy (text r1) = true ->
  models_generateContent B req2 w1 = (inr r2, w2) ->
  truthy (text r2) = true ->
  models_generateContent B req3 w2 = (inr r3, w3) ->
  let s3 :=
    {| world := w3;
       trace := trace s ++ threeStages req1 req2 req3;
       ui := AppState.withLoadingStep generatingImage (ui s) |} in
  (forall pre p post blob,
     partsOrEmpty r3 = pre ++ p :: post ->
     Forall (fun q => inlineData q = None) pre ->
     inlineData p = Some blob ->
     generateVirtualStaging B P fp ref (setLoadingStep B) onResult s =
     onResult ("data:" ++ interpolate (mimeType blob) ++ ";base64,"
                       ++ interpolate (data blob))%string s3) /\
  (Forall (fun q => inlineData q = None) (partsOrEmpty r3) ->
   generateVirtualStaging B P fp ref (setLoadingStep B) onResult s =
   (inl (JsError "No image was generated. The model may have refused the request."), s3)).
Proof.
  intros Href Hfp req1 req2 req3 H1 T1 H2 T2 H3 s3.
  pose proof (generateVirtualStaging_reaches_scan fp ref onResult s
                b64r b64f r1 w1 r2 w2 r3 w3 Href Hfp H1 T1 H2 T2 H3) as Hscan.
  cbv zeta in Hscan. fold req1 req2 req3 in Hscan. fold s3 in Hscan.
  split.
  - intros pre p post blob Hsplit Hpre Hp. rewrite Hscan.
    rewrite (extractImage_first onResult (partsOrEmpty r3) blob).
    + reflexivity.
    + exists pre, p, post. repeat split; assumption.
  - intros Hnone. rewrite Hscan.
    rewrite (extractImage_none onResult _ Hnone). reflexivity.
Qed.

(** C5. When the first call answers with no text or with the empty
    text, the run throws the style-extraction error having issued that
    one generation call and no other; a successful run issues exactly
    three. *)
Theorem generateVirtualStaging_call_counts :
  (forall (fp ref : File) (onResult : string -> M B unit) (s : Machine B) b64r r1 w1,
     fileToBase64 B ref = inr b64r ->
     let req1 := styleRequest P (encodedPart b64r ref) in
     models_generateContent B req1 (world s) = (inr r1, w1) ->
     text r1 = None \/ text r1 = Some "" ->
     exists s',
       generateVirtualStaging B P fp ref (setLoadingStep B) onResult s =
         (inl (JsError "Could not extract style from reference image."), s') /\
       generateCalls (trace s') = generateCalls (trace s) ++ [req1] /\
       stageCalls (trace s') = stageCalls (trace s) ++ [analyzingStyle]) /\
  (forall (fp ref : File) (s : Machine B) b64r b64f r1 w1 r2 w2 r3 w3 blob,
     fileToBase64 B ref = inr b64r ->
     fileToBase64 B fp = inr b64f ->
     let req1 := styleRequest P (encodedPart b64r ref) in
     let req2 := planRequest P (encodedPart b64f fp) in
     let req3 := finalRequest (encodedPart b64f fp)
                   (getFinalPromptTemplate P (interpolate (text r1)) (interpolate (text r2))) in
     models_generateContent B req1 (world s) = (inr r1, w1) ->
     truthy (text r1) = true ->
     models_generateContent B req2 w1 = (inr r2, w2) ->
     truthy (text r2) = true ->
     models_generateContent B req3 w2 = (inr r3, w3) ->
     firstInlineData (partsOrEmpty r3) blob ->
     exists s',
       generateVirtualStaging B P fp ref (setLoadingStep B) (appOnResult B) s =
         (inr tt, s') /\
       generateCalls (trace s') = generateCalls (trace s) ++ [req1; req2; req3]).
Proof.
  split.
  - intros fp ref onResult s b64r r1 w1 Href req1 H1 Hempty.
    assert (T1 : truthy (text r1) = false)
      by (destruct Hempty as [-> | ->]; reflexivity).
    eexists. split; [| split].
    + unfold generateVirtualStaging, fileToGenerativePart, await_fileToBase64,
        ai_models_generateContent, setLoadingStep, ask, emit, updateUi, bind, ret, throw.
      rewrite Href. cbn [world trace ui].
      fold (encodedPart b64r ref). fold req1. rewrite H1.
      cbn [world trace ui]. rewrite T1. cbn [negb]. reflexivity.
    + cbn [trace]. rewrite !generateCalls_app. cbn. rewrite app_nil_r. reflexivity.
    + cbn [trace]. rewrite !stageCalls_app. cbn. rewrite app_nil_r. reflexivity.
  - intros fp ref s b64r b64f r1 w1 r2 w2 r3 w3 blob Href Hfp req1 req2 req3
      H1 T1 H2 T2 H3 Himg.
    eexists. split.
    + rewrite (generateVirtualStaging_reaches_scan fp ref (appOnResult B) s
                 b64r b64f r1 w1 r2 w2 r3 w3 Href Hfp H1 T1 H2 T2 H3).
      rewrite (extractImage_first (appOnResult B) _ _ Himg).
      rewrite appOnResult_run. reflexivity.
    + cbn [trace]. rewrite !generateCalls_app. cbn. rewrite app_nil_r. reflexivity.
Qed.

(** C2. When [handleGenerate] finds the floor plan or the reference
    image missing it stops at once: the error cell gets the
    input-missing message, the stage callback is not invoked, no call
    goes out to the client, and the world is as it was. *)
Theorem handleGenerate_missing_input (s : Machine B) :
  AppState.floorPlanImage (ui s) = None \/ AppState.referenceImage (ui s) = None ->
  exists s',
    handleGenerate B P s = (inr tt, s') /\
    AppState.error (ui s') =
      Some "Please upload both a floor plan and a reference image." /\
    trace s' = trace s ++
      [EvSetError (Some "Please upload both a floor plan and a reference image.")] /\
    stageCalls (trace s') = stageCalls (trace s) /\
    generateCalls (trace s') = generateCalls (trace s) /\
    world s' = world s /\
    AppState.loadingStep (ui s') = AppState.loadingStep (ui s) /\
    AppState.generatedImage (ui s') = AppState.generatedImage (ui s).
Proof.
  intros Hmissing. eexists. split.
  - unfold handleGenerate, readUi, bind at 1.
    destruct Hmissing as [-> | ->].
    + unfold setError, emit, updateUi, bind. reflexivity.
    + destruct (AppState.floorPlanImage (ui s));
        unfold setError, emit, updateUi, bind; reflexivity.
  - cbn [world trace ui]. rewrite stageCalls_app, generateCalls_app. cbn.
    rewrite !app_nil_r. repeat split; reflexivity.
Qed.

(** C4. A run started by [handleGenerate] that fails at any step: a
    file that cannot be encoded, a call the client rejects, an empty
    text after the first or the second call, no image after the third.
    The orchestrator throws exactly what that step raised (the client's
    or the encoder's own value, or the fixed [Error] of the step), the
    [catch] of [handleGenerate] receives that very value, sets the
    stage back to [idle], puts the message of the failure in the error
    cell (the message itself for an [Error]), and no image is
    delivered.  Conversely every run in which the orchestrator throws
    failed at one of these steps, with the value thrown. *)
Theorem handleGenerate_failure_resets_stage (fp ref : File) (s : Machine B) :
  AppState.floorPlanImage (ui s) = Some fp ->
  AppState.referenceImage (ui s) = Some ref ->
  (forall err w',
     StepFails fp ref (world s) err w' ->
     exists s1 s',
       generateVirtualStaging B P fp ref (setLoadingStep B) (appOnResult B) (runStart s)
         = (inl err, s1) /\
       handleGenerate B P s = (inr tt, s') /\
       world s' = w' /\
       trace s' = trace s1 ++
         [ EvConsoleError "" err;
           EvSetError (Some (messageOr "An unknown error occurred." err));
           EvSetLoadingStep idle ] /\
       AppState.loadingStep (ui s') = idle /\
       AppState.error (ui s') = Some (messageOr "An unknown error occurred." err) /\
       (forall message, err = JsError message -> AppState.error (ui s') = Some message) /\
       AppState.generatedImage (ui s') = None /\
       deliveredImages (trace s') = deliveredImages (trace s)) /\
  (forall err s1,
     generateVirtualStaging B P fp ref (setLoadingStep B) (appOnResult B) (runStart s)
       = (inl err, s1) ->
     StepFails fp ref (world s) err (world s1)).
Proof.
  intros Hfp Href. split.
  - intros err w' Hstep.
    destruct (generateVirtualStaging_fails_at_step fp ref (appOnResult B)
                (runStart s) err w' Hstep) as (evs & step & Hrun & Hquiet).
    eexists _, _. split; [exact Hrun |].
    split.
    + rewrite (handleGenerate_run fp ref s Hfp Href).
      unfold tryCatch. rewrite Hrun.
      unfold console_error, setError, setLoadingStep, emit, updateUi, bind.
      cbn [world trace ui]. reflexivity.
    + cbn [world trace ui AppState.loadingStep AppState.error AppState.generatedImage
           AppState.withLoadingStep AppState.withError AppState.withGeneratedImage
           runStart].
      repeat split.
      * repeat rewrite <- app_assoc. reflexivity.
      * intros message ->. reflexivity.
      * rewrite !deliveredImages_app, Hquiet. cbn. rewrite !app_nil_r. reflexivity.
  - intros err s1 Hrun.
    apply (generateVirtualStaging_failed_step fp ref (appOnResult B) (runStart s) s1 err).
    + intros uri s0. rewrite appOnResult_run. reflexivity.
    + exact Hrun.
Qed.

End Orchestrator.

(** ** The model capability prober *)

Section Prober.

Variable B : Backend.

(** [model => model.supportedGenerationMethods.includes('generateContent')] *)
Definition isCapable (m : Model) : bool :=
  includes (supportedGenerationMethods m) "generateContent".

(** The identifiers of the capable models, in the order of the listing. *)
Definition capableNames (models : list Model) : list string :=
  map name (filter isCapable models).

Lemma collectModelNames_spec (models : list Model) (modelNames : list string) :
  collectModelNames models modelNames = modelNames ++ capableNames models.
Proof.
  revert modelNames.
  induction models as [| m models IH]; intros modelNames; simpl.
  - rewrite app_nil_r. reflexivity.
  - unfold capableNames. simpl. fold (isCapable m).
    destruct (isCapable m); rewrite IH; unfold capableNames.
    + rewrite <- app_assoc. reflexivity.
    + reflexivity.
Qed.

(** What [listAvailableModels] returns, by the outcome of the listing
    call. *)
Definition listingReport (answer : JsThrown + list Model) : list string :=
  match answer with
  | inr models =>
      match capableNames models with
      | [] => ["No models supporting 'generateContent' found for your API key."]
      | names => names
      end
  | inl (JsError message) => [("Error listing models: " ++ message)%string]
  | inl (JsOther _) => ["An unknown error occurred while listing models."]
  end.

Definition listingEvents (answer : JsThrown + list Model) : list Event :=
  match answer with
  | inr _ => [EvModelsList]
  | inl err => [EvModelsList; EvConsoleError "Error listing models:" err]
  end.

Lemma listAvailableModels_run (s : Machine B) answer w :
  models_list B (world s) = (answer, w) ->
  listAvailableModels B s =
  (inr (listingReport answer),
   {| world := w; trace := trace s ++ listingEvents answer; ui := ui s |}).
Proof.
  intros Hlist.
  unfold listAvailableModels, tryCatch, ai_models_list, console_error,
    ask, emit, bind, ret.
  cbn [world trace ui]. rewrite Hlist. cbn [world trace ui].
  destruct answer as [[message | v] | models];
    cbn [listingReport listingEvents world trace ui].
  - rewrite <- app_assoc. reflexivity.
  - rewrite <- app_assoc. reflexivity.
  - rewrite collectModelNames_spec. cbn [app].
    destruct (capableNames models); reflexivity.
Qed.

(** The listing is never empty. *)
Lemma listingReport_nonempty answer : listingReport answer <> [].
Proof.
  destruct answer as [[message | v] | models]; cbn; try discriminate.
  destruct (capableNames models); discriminate.
Qed.

(** What one probe records, by the outcome of its generation call and
    the time that went by. *)
Definition probeResult (modelName : string)
    (answer : JsThrown + GenerateContentResponse) (elapsed : Z) : ModelTestResult :=
  match answer with
  | inr response =>
      match hasImageOf response with
      | Some true =>
          {| modelName := modelName; supportsImageGeneration := true;
             error := None; responseTime := Some elapsed |}
      | _ =>
          {| modelName := modelName; supportsImageGeneration := false;
             error := Some "Model responded but did not generate an image";
             responseTime := Some elapsed |}
      end
  | inl err =>
      {| modelName := modelName; supportsImageGeneration := false;
         error := Some (messageOr "Unknown error" err);
         responseTime := Some elapsed |}
  end.

(** [hasImage] is truthy exactly when the first candidate has parts and
    one of them carries inline data. *)
Lemma hasImageOf_true (response : GenerateContentResponse) :
  hasImageOf response = Some true <->
  exists ps p blob,
    firstCandidateParts response = Some ps /\ In p ps /\ inlineData p = Some blob.
Proof.
  unfold hasImageOf. destruct (firstCandidateParts response) as [ps |].
  - split.
    + intros [= Hsome]. apply existsb_exists in Hsome.
      destruct Hsome as (p & Hin & Hp).
      destruct (inlineData p) as [blob |] eqn:Hblob; [| discriminate Hp].
      exists ps, p, blob. repeat split; assumption.
    + intros (ps' & p & blob & [= <-] & Hin & Hblob).
      f_equal. apply existsb_exists. exists p. rewrite Hblob. split; [exact Hin | reflexivity].
  - split; [discriminate |].
    intros (ps & p & blob & Hnone & _). discriminate Hnone.
Qed.

Lemma testImageGenerationModel_run (id : string) (s : Machine B)
    t0 w0 answer w1 t1 w2 :
  Date_now B (world s) = (t0, w0) ->
  models_generateContent B (probeRequest id) w0 = (answer, w1) ->
  Date_now B w1 = (t1, w2) ->
  testImageGenerationModel B id s =
  (inr (probeResult id answer (t1 - t0)),
   {| world := w2;
      trace := trace s ++ [EvGenerateContent (probeRequest id)];
      ui := ui s |}).
Proof.
  intros Hstart Hcall Hstop.
  unfold testImageGenerationModel, tryCatch, Date_dot_now,
    ai_models_generateContent, ask, emit, bind, ret.
  cbn [world trace ui]. rewrite Hstart. cbn [world trace ui].
  rewrite Hcall. cbn [world trace ui].
  destruct answer as [err | response]; cbn [world trace ui probeResult].
  - rewrite Hstop. reflexivity.
  - rewrite Hstop. destruct (hasImageOf response) as [[|] |]; reflexivity.
Qed.

(** A probe always returns. *)
Lemma testImageGenerationModel_returns (id : string) (s : Machine B) :
  exists answer elapsed s',
    testImageGenerationModel B id s = (inr (probeResult id answer elapsed), s') /\
    fst (models_generateContent B (probeRequest id) (snd (Date_now B (world s)))) = answer /\
    trace s' = trace s ++ [EvGenerateContent (probeRequest id)] /\
    ui s' = ui s.
Proof.
  destruct (Date_now B (world s)) as [t0 w0] eqn:Hstart.
  destruct (models_generateContent B (probeRequest id) w0) as [answer w1] eqn:Hcall.
  destruct (Date_now B w1) as [t1 w2] eqn:Hstop.
  exists answer, (t1 - t0)%Z. eexists.
  rewrite (testImageGenerationModel_run id s _ _ _ _ _ _ Hstart Hcall Hstop).
  cbn [snd]. rewrite Hcall. repeat split; reflexivity.
Qed.

Lemma probeResult_modelName id answer elapsed :
  modelName (probeResult id answer elapsed) = id.
Proof.
  destruct answer as [err | response]; cbn; [reflexivity |].
  destruct (hasImageOf response) as [[|] |]; reflexivity.
Qed.

(** The loop probes the models it is given one after the other and
    appends one result for each. *)
Lemma probeEach_run (validModels : list string) :
  forall (results : list ModelTestResult) (s : Machine B),
  exists probed s',
    probeEach B validModels results s = (inr (results ++ probed), s') /\
    map modelName probed = validModels /\
    generateCalls (trace s') =
      generateCalls (trace s) ++ map probeRequest validModels /\
    ui s' = ui s.
Proof.
  induction validModels as [| id rest IH]; intros results s.
  - exists [], s. cbn. rewrite !app_nil_r. repeat split; reflexivity.
  - cbn [probeEach].
    unfold bind at 1, console_log, emit. cbn [world trace ui].
    set (s0 := {| world := world s;
                  trace := trace s ++ [EvConsoleLog ("Testing model: " ++ id)];
                  ui := ui s |}).
    destruct (testImageGenerationModel_returns id s0)
      as (answer & elapsed & s1 & Hrun & _ & Htrace & Hui).
    unfold bind. rewrite Hrun.
    destruct (IH (results ++ [probeResult id answer elapsed]) s1)
      as (probed & s' & Hloop & Hnames & Hcalls & Hui').
    exists (probeResult id answer elapsed :: probed), s'.
    rewrite Hloop, <- app_assoc. cbn [app map].
    rewrite probeResult_modelName, Hnames, Hcalls, Htrace, Hui', Hui.
    unfold s0. cbn [trace ui].
    rewrite !generateCalls_app. cbn. rewrite app_nil_r, <- app_assoc.
    repeat split; reflexivity.
Qed.

Lemma valid_listingReport_models (models : list Model) :
  filter isValidModel (listingReport (inr models)) =
  filter isValidModel (capableNames models).
Proof.
  cbn [listingReport]. destruct (capableNames models); reflexivity.
Qed.

Lemma valid_listingReport_error (message : string) :
  filter isValidModel (listingReport (inl (JsError message))) = [].
Proof. reflexivity. Qed.

(** [testAllModelsForImageGeneration] after the listing call: it probes
    the valid entries of what [listAvailableModels] reports. *)
Lemma testAll_run (s : Machine B) answer w :
  models_list B (world s) = (answer, w) ->
  let validModels := filter isValidModel (listingReport answer) in
  exists results s',
    testAllModelsForImageGeneration B s = (inr results, s') /\
    map modelName results = validModels /\
    generateCalls (trace s') =
      generateCalls (trace s) ++ map probeRequest validModels.
Proof.
  intros Hlist validModels.
  unfold testAllModelsForImageGeneration, bind.
  rewrite (listAvailableModels_run s answer w Hlist).
  fold validModels.
  assert (Hquiet : generateCalls (trace s ++ listingEvents answer) =
                   generateCalls (trace s)).
  { rewrite generateCalls_app.
    destruct answer; cbn; rewrite app_nil_r; reflexivity. }
  destruct validModels as [| id rest] eqn:Hvalid.
  - cbn [length Nat.eqb]. unfold ret. eexists _, _.
    split; [reflexivity |]. cbn [trace map]. rewrite Hquiet, app_nil_r.
    split; reflexivity.
  - cbn [length Nat.eqb].
    destruct (probeEach_run (id :: rest) []
                {| world := w; trace := trace s ++ listingEvents answer; ui := ui s |})
      as (probed & s' & Hloop & Hnames & Hcalls & _).
    exists probed, s'. rewrite Hloop. cbn [app trace] in *.
    rewrite Hcalls, Hquiet. repeat split; [exact Hnames].
Qed.

(** The sweep as the code runs it.  After a listing that succeeds it
    returns one result for each capable identifier that passes the
    prefix filter (starts neither with [Error] nor with [No models]),
    in the order of the listing, and issues one probe call for each, in
    that order and nothing else; with no capable model, or when the
    listing throws an [Error], it returns the empty array and issues no
    probe call. *)
Theorem testAll_probes_valid_models (s : Machine B) :
  (forall models w,
     models_list B (world s) = (inr models, w) ->
     let validModels := filter isValidModel (capableNames models) in
     exists results s',
       testAllModelsForImageGeneration B s = (inr results, s') /\
       map modelName results = validModels /\
       length results = length validModels /\
       generateCalls (trace s') =
         generateCalls (trace s) ++ map probeRequest validModels) /\
  (forall models w,
     models_list B (world s) = (inr models, w) ->
     capableNames models = [] ->
     exists s',
       testAllModelsForImageGeneration B s = (inr [], s') /\
       generateCalls (trace s') = generateCalls (trace s)) /\
  (forall message w,
     models_list B (world s) = (inl (JsError message), w) ->
     exists s',
       testAllModelsForImageGeneration B s = (inr [], s') /\
       generateCalls (trace s') = generateCalls (trace s)).
Proof.
  split; [| split].
  - intros models w Hlist validModels.
    destruct (testAll_run s _ w Hlist) as (results & s' & Hrun & Hnames & Hcalls).
    rewrite valid_listingReport_models in Hnames, Hcalls.
    exists results, s'. repeat split; try assumption.
    rewrite <- (length_map modelName), Hnames. reflexivity.
  - intros models w Hlist Hnone.
    destruct (testAll_run s _ w Hlist) as (results & s' & Hrun & Hnames & Hcalls).
    rewrite valid_listingReport_models, Hnone in Hnames, Hcalls.
    cbn in Hnames, Hcalls. rewrite app_nil_r in Hcalls.
    apply map_eq_nil in Hnames. subst results.
    exists s'. split; assumption.
  - intros message w Hlist.
    destruct (testAll_run s _ w Hlist) as (results & s' & Hrun & Hnames & Hcalls).
    rewrite valid_listingReport_error in Hnames, Hcalls.
    cbn in Hnames, Hcalls. rewrite app_nil_r in Hcalls.
    apply map_eq_nil in Hnames. subst results.
    exists s'. split; assumption.
Qed.

(** C7. [testImageGenerationModel] always returns a result and never
    throws, whatever the client does.  The result carries the elapsed
    time between the two clock readings around the call; when the
    client throws, it is negative and records the failure's message
    (the message itself for an [Error]). *)
Theorem testImageGenerationModel_total (id : string) (s : Machine B) :
  let started := Date_now B (world s) in
  let called := models_generateContent B (probeRequest id) (snd started) in
  let stopped := Date_now B (snd called) in
  exists r s',
    testImageGenerationModel B id s = (inr r, s') /\
    modelName r = id /\
    responseTime r = Some (fst stopped - fst started)%Z /\
    (forall err,
       fst called = inl err ->
       supportsImageGeneration r = false /\
       error r = Some (messageOr "Unknown error" err) /\
       (forall message, err = JsError message -> error r = Some message)).
Proof.
  cbv zeta.
  destruct (Date_now B (world s)) as [t0 w0] eqn:Hstart. cbn [fst snd].
  destruct (models_generateContent B (probeRequest id) w0)
    as [answer w1] eqn:Hcall. cbn [fst snd].
  destruct (Date_now B w1) as [t1 w2] eqn:Hstop. cbn [fst snd].
  eexists _, _.
  split; [exact (testImageGenerationModel_run id s _ _ _ _ _ _ Hstart Hcall Hstop) |].
  split; [apply probeResult_modelName |].
  split.
  - cbn [fst]. destruct answer as [err | response]; cbn; [reflexivity |].
    destruct (hasImageOf response) as [[|] |]; reflexivity.
  - cbn [fst]. intros err ->. cbn. repeat split. intros message ->. reflexivity.
Qed.

(** C9. In every result of [testImageGenerationModel] the error string
    is there exactly when [supportsImageGeneration] is false. *)
Theorem testImageGenerationModel_error_iff_negative (id : string) (s : Machine B) :
  exists r s',
    testImageGenerationModel B id s = (inr r, s') /\
    (supportsImageGeneration r = true <-> error r = None) /\
    (supportsImageGeneration r = false <-> exists message, error r = Some message).
Proof.
  destruct (testImageGenerationModel_returns id s)
    as (answer & elapsed & s' & Hrun & _).
  exists (probeResult id answer elapsed), s'.
  split; [exact Hrun |].
  assert (Hcases :
    (supportsImageGeneration (probeResult id answer elapsed) = true /\
     error (probeResult id answer elapsed) = None) \/
    (supportsImageGeneration (probeResult id answer elapsed) = false /\
     exists message, error (probeResult id answer elapsed) = Some message)).
  { destruct answer as [err | response]; cbn; [right; eauto |].
    destruct (hasImageOf response) as [[|] |]; cbn; [left | right | right]; eauto. }
  destruct Hcases as [[Hyes Hnone] | [Hno (message & Hsome)]].
  - rewrite Hyes, Hnone. split; split; intros H; try reflexivity.
    + discriminate H.
    + destruct H as (m & H). discriminate H.
  - rewrite Hno, Hsome. split; split; intros H; try reflexivity.
    + discriminate H.
    + discriminate H.
    + exists message. reflexivity.
Qed.

(** A client is deterministic when its answer to a request does not
    depend on the state of the world. *)
Definition deterministicClient : Prop :=
  forall req w w',
    fst (models_generateContent B req w) = fst (models_generateContent B req w').

(** C10. Against a deterministic client, two probes of the same model,
    whenever they are made, agree on [supportsImageGeneration] and on
    [error]. *)
Theorem testImageGenerationModel_idempotent (id : string) (s t : Machine B) :
  deterministicClient ->
  exists r1 s1 r2 t1,
    testImageGenerationModel B id s = (inr r1, s1) /\
    testImageGenerationModel B id t = (inr r2, t1) /\
    supportsImageGeneration r1 = supportsImageGeneration r2 /\
    error r1 = error r2.
Proof.
  intros Hdet.
  destruct (testImageGenerationModel_returns id s)
    as (answer1 & elapsed1 & s1 & Hrun1 & Hanswer1 & _).
  destruct (testImageGenerationModel_returns id t)
    as (answer2 & elapsed2 & t1 & Hrun2 & Hanswer2 & _).
  assert (Hsame : answer1 = answer2).
  { rewrite <- Hanswer1, <- Hanswer2. apply Hdet. }
  clear Hanswer1 Hanswer2. subst answer2.
  exists (probeResult id answer1 elapsed1), s1, (probeResult id answer1 elapsed2), t1.
  repeat split; try assumption.
  - destruct answer1 as [err | response]; cbn; [reflexivity |].
    destruct (hasImageOf response) as [[|] |]; reflexivity.
  - destruct answer1 as [err | response]; cbn; [reflexivity |].
    destruct (hasImageOf response) as [[|] |]; reflexivity.
Qed.

End Prober.

(** * Test doubles and concrete runs *)

(** A client double: [script] answers the generation calls, knowing how
    many were answered before; [listing] is the outcome of every listing
    call; the clock moves by 40 ms with each generation call. *)
Definition scripted
    (script : GenerateContentParameters -> nat -> JsThrown + GenerateContentResponse)
    (listing : JsThrown + list Model) : Backend :=
  {| World := nat;
     models_generateContent := fun req n => (script req n, S n);
     models_list := fun n => (listing, n);
     Date_now := fun n => ((Z.of_nat n * 40)%Z, n);
     fileToBase64 := fun f => inr ("b64(" ++ payload f ++ ")")%string |}.

Definition demoPrompts : Prompts :=
  {| STYLE_EXTRACTION_PROMPT := "Describe the style of this room.";
     FLOOR_PLAN_ANALYSIS_PROMPT := "Describe this floor plan.";
     getFinalPromptTemplate := fun styleDescription floorPlanAnalysis =>
       ("<style_guide>" ++ styleDescription ++ "</style_guide><architectural_plan>"
          ++ floorPlanAnalysis ++ "</architectural_plan>")%string |}.

Definition planFile : File := {| type := "image/png"; payload := "plan" |}.
Definition referenceFile : File := {| type := "image/jpeg"; payload := "room" |}.

Definition textResponse (t : string) : GenerateContentResponse :=
  {| text := Some t;
     candidates := Some [ {| content := Some {| parts := Some [textPart t] |} |} ] |}.

Definition pngBlob : Blob :=
  {| data := Some "iVBORw0KGgo="; mimeType := Some "image/png" |}.

Definition imageResponse : GenerateContentResponse :=
  {| text := Some "Here is your render.";
     candidates := Some
       [ {| content := Some
              {| parts := Some [ textPart "Here is your render.";
                                 {| partText := None; inlineData := Some pngBlob |} ] |} |} ] |}.

(** The first end-to-end scenario of the specification. *)
Definition stagingScript (req : GenerateContentParameters) (n : nat)
  : JsThrown + GenerateContentResponse :=
  match n with
  | 0 => inr (textResponse "minimalist, oak floors")
  | 1 => inr (textResponse "2-bedroom, L-shaped")
  | _ => inr imageResponse
  end.

Definition threeModels : list Model :=
  [ {| name := "models/A"; supportedGenerationMethods := ["generateContent"; "countTokens"] |};
    {| name := "models/B"; supportedGenerationMethods := ["embedContent"] |};
    {| name := "models/C"; supportedGenerationMethods := ["generateContent"] |} ].

Definition stagingBackend : Backend := scripted stagingScript (inr threeModels).

Definition bothImages : AppState.t :=
  {| AppState.floorPlanImage := Some planFile;
     AppState.referenceImage := Some referenceFile;
     AppState.generatedImage := None;
     AppState.loadingStep := idle;
     AppState.error := None |}.

Definition start (B : Backend) (w : World B) (st : AppState.t) : Machine B :=
  {| world := w; trace := []; ui := st |}.

Lemma generateVirtualStaging_stage_sequence_witness :
  let run := generateVirtualStaging stagingBackend demoPrompts planFile referenceFile
               (setLoadingStep stagingBackend) (appOnResult stagingBackend)
               (start stagingBackend 0 bothImages) in
  fst run = inr tt /\
  stageCalls (trace (snd run)) =
    [analyzingStyle; analyzingPlan; generatingImage; idle] /\
  deliveredImages (trace (snd run)) = ["data:image/png;base64,iVBORw0KGgo="].
Proof.
  cbv zeta.
  edestruct (generateVirtualStaging_stage_sequence stagingBackend demoPrompts
               planFile referenceFile (appOnResult stagingBackend)
               (start stagingBackend 0 bothImages)) as [Hrun _].
  - reflexivity.
  - reflexivity.
  - reflexivity.
  - reflexivity.
  - reflexivity.
  - reflexivity.
  - reflexivity.
  - exists [textPart "Here is your render."],
      {| partText := None; inlineData := Some pngBlob |}, [].
    split; [reflexivity | split; [repeat constructor | reflexivity]].
  - rewrite Hrun. vm_compute. repeat split.
Defined.

Definition missingReference : AppState.t :=
  {| AppState.floorPlanImage := Some planFile;
     AppState.referenceImage := None;
     AppState.generatedImage := None;
     AppState.loadingStep := idle;
     AppState.error := None |}.

Lemma handleGenerate_missing_input_witness :
  let run := handleGenerate stagingBackend demoPrompts
               (start stagingBackend 0 missingReference) in
  fst run = inr tt /\
  AppState.error (ui (snd run)) =
    Some "Please upload both a floor plan and a reference image." /\
  stageCalls (trace (snd run)) = [] /\
  generateCalls (trace (snd run)) = [].
Proof.
  cbv zeta.
  destruct (handleGenerate_missing_input stagingBackend demoPrompts
              (start stagingBackend 0 missingReference) (or_intror eq_refl))
    as (s' & Hrun & Herror & _ & Hstages & Hcalls & _).
  rewrite Hrun. cbn [fst snd].
  rewrite Herror, Hstages, Hcalls. repeat split.
Defined.

(** A third call that is answered in words only. *)
Definition refusalScript (req : GenerateContentParameters) (n : nat)
  : JsThrown + GenerateContentResponse :=
  match n with
  | 0 => inr (textResponse "minimalist, oak floors")
  | 1 => inr (textResponse "2-bedroom, L-shaped")
  | _ => inr (textResponse "I cannot draw this floor plan.")
  end.

Definition refusingBackend : Backend := scripted refusalScript (inr threeModels).

Lemma generateVirtualStaging_image_extraction_witness :
  (let run := generateVirtualStaging stagingBackend demoPrompts planFile referenceFile
                (setLoadingStep stagingBackend) (appOnResult stagingBackend)
                (start stagingBackend 0 bothImages) in
   fst run = inr tt /\
   AppState.generatedImage (ui (snd run)) = Some "data:image/png;base64,iVBORw0KGgo=") /\
  (let run := generateVirtualStaging refusingBackend demoPrompts planFile referenceFile
                (setLoadingStep refusingBackend) (appOnResult refusingBackend)
                (start refusingBackend 0 bothImages) in
   fst run =
     inl (JsError "No image was generated. The model may have refused the request.") /\
   AppState.generatedImage (ui (snd run)) = None).
Proof.
  cbv zeta. split.
  - edestruct (generateVirtualStaging_image_extraction stagingBackend demoPrompts
                 planFile referenceFile (appOnResult stagingBackend)
                 (start stagingBackend 0 bothImages)) as [Himage _];
      [reflexivity .. |].
    rewrite (Himage [textPart "Here is your render."]
               {| partText := None; inlineData := Some pngBlob |} [] pngBlob);
      [| reflexivity | repeat constructor | reflexivity].
    vm_compute. split; reflexivity.
  - edestruct (generateVirtualStaging_image_extraction refusingBackend demoPrompts
                 planFile referenceFile (appOnResult refusingBackend)
                 (start refusingBackend 0 bothImages)) as [_ Hnone];
      [reflexivity .. |].
    rewrite Hnone; [| repeat constructor].
    vm_compute. split; reflexivity.
Defined.

(** A second call that is turned down by the endpoint. *)
Definition quotaScript (req : GenerateContentParameters) (n : nat)
  : JsThrown + GenerateContentResponse :=
  match n with
  | 0 => inr (textResponse "minimalist, oak floors")
  | _ => inl (JsError "429 quota exceeded")
  end.

Definition quotaBackend : Backend := scripted quotaScript (inr threeModels).

Lemma handleGenerate_failure_resets_stage_witness :
  let run := handleGenerate quotaBackend demoPrompts (start quotaBackend 0 bothImages) in
  fst run = inr tt /\
  AppState.loadingStep (ui (snd run)) = idle /\
  AppState.error (ui (snd run)) = Some "429 quota exceeded" /\
  AppState.generatedImage (ui (snd run)) = None /\
  deliveredImages (trace (snd run)) = [] /\
  world (snd run) = 2.
Proof.
  cbv zeta.
  assert (Hstep : StepFails quotaBackend demoPrompts planFile referenceFile
                    (world (start quotaBackend 0 bothImages))
                    (JsError "429 quota exceeded") 2).
  { eapply (PlanCallThrows quotaBackend demoPrompts planFile referenceFile 0
              (textResponse "minimalist, oak floors") 1 "b64(plan)").
    - exists "b64(room)". repeat split.
    - reflexivity.
    - reflexivity. }
  destruct (proj1 (handleGenerate_failure_resets_stage quotaBackend demoPrompts
                     planFile referenceFile (start quotaBackend 0 bothImages)
                     eq_refl eq_refl) _ _ Hstep)
    as (s1 & s' & _ & Hrun & Hworld & _ & Hstage & _ & Hmessage & Himage & Hdelivered).
  rewrite Hrun. cbn [fst snd].
  rewrite Hstage, (Hmessage _ eq_refl), Himage, Hdelivered, Hworld. repeat split.
Defined.

(** A first call that is answered with the empty text. *)
Definition silentScript (req : GenerateContentParameters) (n : nat)
  : JsThrown + GenerateContentResponse :=
  inr {| text := Some ""; candidates := Some [] |}.

Definition silentBackend : Backend := scripted silentScript (inr threeModels).

Lemma generateVirtualStaging_call_counts_witness :
  (let run := generateVirtualStaging silentBackend demoPrompts planFile referenceFile
                (setLoadingStep silentBackend) (appOnResult silentBackend)
                (start silentBackend 0 bothImages) in
   fst run = inl (JsError "Could not extract style from reference image.") /\
   length (generateCalls (trace (snd run))) = 1) /\
  (let run := generateVirtualStaging stagingBackend demoPrompts planFile referenceFile
                (setLoadingStep stagingBackend) (appOnResult stagingBackend)
                (start stagingBackend 0 bothImages) in
   fst run = inr tt /\
   length (generateCalls (trace (snd run))) = 3).
Proof.
  cbv zeta. split.
  - edestruct (proj1 (generateVirtualStaging_call_counts silentBackend demoPrompts)
                 planFile referenceFile (appOnResult silentBackend)
                 (start silentBackend 0 bothImages))
      as (s' & Hrun & Hcalls & _);
      [reflexivity | reflexivity | right; reflexivity |].
    rewrite Hrun. cbn [fst snd]. rewrite Hcalls. split; reflexivity.
  - edestruct (proj2 (generateVirtualStaging_call_counts stagingBackend demoPrompts)
                 planFile referenceFile (start stagingBackend 0 bothImages))
      as (s' & Hrun & Hcalls);
      [reflexivity | reflexivity | reflexivity | reflexivity | reflexivity
       | reflexivity | reflexivity | |].
    + exists [textPart "Here is your render."],
        {| partText := None; inlineData := Some pngBlob |}, [].
      split; [reflexivity | split; [repeat constructor | reflexivity]].
    + rewrite Hrun. cbn [fst snd]. rewrite Hcalls. split; reflexivity.
Defined.

(** A deterministic client for the prober: only [models/A] draws. *)
Definition capabilityScript (req : GenerateContentParameters) (n : nat)
  : JsThrown + GenerateContentResponse :=
  if String.eqb (model req) "models/A"
  then inr imageResponse
  else if String.eqb (model req) "models/C"
  then inr (textResponse "A blue circle on a white background.")
  else inl (JsError "404 model not found").

Definition probingBackend : Backend := scripted capabilityScript (inr threeModels).

Definition idlePage : AppState.t :=
  {| AppState.floorPlanImage := None;
     AppState.referenceImage := None;
     AppState.generatedImage := None;
     AppState.loadingStep := idle;
     AppState.error := None |}.

(** The second end-to-end scenario of the specification. *)
Lemma testAll_probes_valid_models_witness :
  exists results s',
    testAllModelsForImageGeneration probingBackend (start probingBackend 0 idlePage)
      = (inr results, s') /\
    map modelName results = ["models/A"; "models/C"] /\
    length results = 2 /\
    generateCalls (trace s') = [probeRequest "models/A"; probeRequest "models/C"].
Proof.
  destruct (proj1 (testAll_probes_valid_models probingBackend
                     (start probingBackend 0 idlePage)) threeModels 0 eq_refl)
    as (results & s' & Hrun & Hnames & Hlength & Hcalls).
  exists results, s'. repeat split; assumption.
Defined.

(** A listing with a capable model whose identifier starts with [Error]. *)
Definition errorNamedModels : list Model :=
  [ {| name := "Error-correcting-v1"; supportedGenerationMethods := ["generateContent"] |};
    {| name := "models/C"; supportedGenerationMethods := ["generateContent"] |} ].

Definition errorNamedBackend : Backend := scripted capabilityScript (inr errorNamedModels).

(** C6 at the failing input: two capable models are listed, and the
    one whose identifier starts with [Error] is taken for a diagnostic
    by the prefix filter: one result comes back where two are due, and
    one probe call goes out. *)
Lemma testAll_skips_error_named_model :
  let run := testAllModelsForImageGeneration errorNamedBackend
               (start errorNamedBackend 0 idlePage) in
  fst (models_list errorNamedBackend 0) = inr errorNamedModels /\
  capableNames errorNamedModels = ["Error-correcting-v1"; "models/C"] /\
  fst (listAvailableModels errorNamedBackend (start errorNamedBackend 0 idlePage))
    = inr ["Error-correcting-v1"; "models/C"] /\
  (exists results,
     fst run = inr results /\
     map modelName results = ["models/C"] /\
     length results = 1) /\
  generateCalls (trace (snd run)) = [probeRequest "models/C"].
Proof.
  cbv zeta. vm_compute. repeat split. eexists. repeat split.
Qed.

(** A client whose every generation call throws. *)
Definition deniedScript (req : GenerateContentParameters) (n : nat)
  : JsThrown + GenerateContentResponse :=
  inl (JsError "403 permission denied").

Definition deniedBackend : Backend := scripted deniedScript (inr threeModels).

Lemma testImageGenerationModel_total_witness :
  exists r s',
    testImageGenerationModel deniedBackend "models/A" (start deniedBackend 5 idlePage)
      = (inr r, s') /\
    modelName r = "models/A" /\
    supportsImageGeneration r = false /\
    error r = Some "403 permission denied" /\
    responseTime r = Some 40%Z.
Proof.
  destruct (testImageGenerationModel_total deniedBackend "models/A"
              (start deniedBackend 5 idlePage))
    as (r & s' & Hrun & Hname & Htime & Hfailure).
  destruct (Hfailure (JsError "403 permission denied") eq_refl)
    as (Hnegative & _ & Hmessage).
  exists r, s'. repeat split; try assumption.
  apply Hmessage. reflexivity.
Defined.

Lemma testImageGenerationModel_idempotent_witness :
  exists r1 s1 r2 s2,
    testImageGenerationModel probingBackend "models/A" (start probingBackend 0 idlePage)
      = (inr r1, s1) /\
    testImageGenerationModel probingBackend "models/A" (start probingBackend 7 idlePage)
      = (inr r2, s2) /\
    supportsImageGeneration r1 = supportsImageGeneration r2 /\
    error r1 = error r2.
Proof.
  apply (testImageGenerationModel_idempotent probingBackend "models/A"
           (start probingBackend 0 idlePage) (start probingBackend 7 idlePage)).
  intros req w w'. reflexivity.
Defined.

(** A listing call that throws something that is not an [Error]. *)
Definition brokenListingBackend : Backend :=
  scripted capabilityScript (inl (JsOther "503")).

(** C8 at the failing input: the diagnostic of a failed listing does not
    start with [Error] (nor with [No models]), and
    [testAllModelsForImageGeneration] goes on to probe it as if it were
    a model. *)
Theorem listAvailableModels_unknown_error_diagnostic :
  let s := start brokenListingBackend 0 idlePage in
  fst (listAvailableModels brokenListingBackend s)
    = inr ["An unknown error occurred while listing models."] /\
  startsWith "An unknown error occurred while listing models." "Error" = false /\
  isValidModel "An unknown error occurred while listing models." = true /\
  generateCalls (trace (snd (testAllModelsForImageGeneration brokenListingBackend s)))
    = [probeRequest "An unknown error occurred while listing models."].
Proof.
  cbv zeta. vm_compute. repeat split.
Qed.

(** * Further properties of the orchestrator *)

Section OrchestratorRuns.

Variable B : Backend.
Variable P : Prompts.

(** Everything a successful run started with the callbacks of [App]
    appends to the trace. *)
Definition fullRun (req1 req2 req3 : GenerateContentParameters) (uri : string)
  : list Event :=
  [ EvSetLoadingStep analyzingStyle; EvGenerateContent req1;
    EvSetLoadingStep analyzingPlan; EvGenerateContent req2;
    EvSetLoadingStep generatingImage; EvGenerateContent req3;
    EvSetGeneratedImage (Some uri); EvSetLoadingStep idle ].

(** The image cells of the page are not touched. *)
Definition sameInputs (s s1 : Machine B) : Prop :=
  AppState.floorPlanImage (ui s1) = AppState.floorPlanImage (ui s) /\
  AppState.referenceImage (ui s1) = AppState.referenceImage (ui s).

Ltac stopped_after n req1 req2 req3 :=
  exists n, req1, req2, req3, ""; eexists _, _;
  split; [reflexivity |];
  split; [cbn [trace firstn fullRun]; rewrite <- ?app_assoc; reflexivity |];
  split; [reflexivity |]; split; [reflexivity |]; split; [reflexivity |];
  split; [split; reflexivity |];
  right; eexists; split; [reflexivity |];
  split; [lia |];
  unfold nothingDelivered; cbn [world trace ui];
  rewrite ?deliveredImages_app; cbn; rewrite ?app_nil_r; auto.

(** Every run of the orchestrator under [handleGenerate], classified:
    where it stopped, what it left in the trace and in the page. *)
Lemma generateVirtualStaging_outcomes (fp ref : File) (s : Machine B) :
  exists n req1 req2 req3 uri out s',
    generateVirtualStaging B P fp ref (setLoadingStep B) (appOnResult B) s = (out, s') /\
    trace s' = trace s ++ firstn n (fullRun req1 req2 req3 uri) /\
    model req1 = configuredModel /\
    model req2 = configuredModel /\
    model req3 = configuredModel /\
    sameInputs s s' /\
    ((out = inr tt /\ n = 8 /\
      ui s' = AppState.withLoadingStep idle
                (AppState.withGeneratedImage (Some uri) (ui s))) \/
     (exists err, out = inl err /\ 1 <= n <= 6 /\ nothingDelivered B s s')).
Proof.
  unfold generateVirtualStaging, fileToGenerativePart, await_fileToBase64,
    ai_models_generateContent, setLoadingStep, ask, emit, updateUi, bind, ret, throw.
  cbn [world trace ui].
  set (anyReq := styleRequest P (textPart "")).
  destruct (fileToBase64 B ref) as [e0 | b64r] eqn:Href; cbn [world trace ui].
  { stopped_after 1 anyReq anyReq anyReq. }
  set (req1 := styleRequest P _).
  destruct (models_generateContent B req1 (world s)) as [[e1 | r1] w1] eqn:H1;
    cbn [world trace ui].
  { stopped_after 2 req1 anyReq anyReq. }
  destruct (truthy (text r1)); cbn [negb].
  2:{ stopped_after 2 req1 anyReq anyReq. }
  destruct (fileToBase64 B fp) as [e2 | b64f] eqn:Hfp; cbn [world trace ui].
  { stopped_after 3 req1 anyReq anyReq. }
  set (req2 := planRequest P _).
  destruct (models_generateContent B req2 w1) as [[e3 | r2] w2] eqn:H2;
    cbn [world trace ui].
  { stopped_after 4 req1 req2 anyReq. }
  destruct (truthy (text r2)); cbn [negb].
  2:{ stopped_after 4 req1 req2 anyReq. }
  cbn [world trace ui].
  set (req3 := finalRequest _ _).
  destruct (models_generateContent B req3 w2) as [[e4 | r3] w3] eqn:H3;
    cbn [world trace ui].
  { stopped_after 6 req1 req2 req3. }
  destruct (inlineData_cases (partsOrEmpty r3)) as [Hnone | (blob & Hblob)].
  - rewrite (extractImage_none B (appOnResult B) _ Hnone). unfold throw.
    stopped_after 6 req1 req2 req3.
  - rewrite (extractImage_first B (appOnResult B) _ _ Hblob), appOnResult_run.
    cbn [world trace ui].
    exists 8, req1, req2, req3, (dataUri blob). eexists _, _.
    split; [reflexivity |].
    split; [cbn [trace firstn fullRun]; rewrite <- ?app_assoc; reflexivity |].
    split; [reflexivity |]. split; [reflexivity |]. split; [reflexivity |].
    split; [split; reflexivity |].
    left. repeat split.
Qed.

(** X1. Whatever the client, the encoder and the response do, the
    events a run of the orchestrator adds to the trace are an initial
    segment of one fixed sequence: stage, call, stage, call, stage,
    call, image delivered, stage back to [idle].  All its calls go to
    the configured model, the run succeeds exactly when the whole
    sequence is there, and it never stops right after delivering the
    image. *)
Theorem generateVirtualStaging_trace_is_prefix (fp ref : File) (s : Machine B) :
  let run := generateVirtualStaging B P fp ref (setLoadingStep B) (appOnResult B) s in
  exists n req1 req2 req3 uri,
    trace (snd run) = trace s ++
      firstn n
        [ EvSetLoadingStep analyzingStyle; EvGenerateContent req1;
          EvSetLoadingStep analyzingPlan; EvGenerateContent req2;
          EvSetLoadingStep generatingImage; EvGenerateContent req3;
          EvSetGeneratedImage (Some uri); EvSetLoadingStep idle ] /\
    model req1 = "gemini-3-pro-image-preview" /\
    model req2 = "gemini-3-pro-image-preview" /\
    model req3 = "gemini-3-pro-image-preview" /\
    1 <= n <= 8 /\ n <> 7 /\
    (fst run = inr tt <-> n = 8).
Proof.
  cbv zeta.
  destruct (generateVirtualStaging_outcomes fp ref s)
    as (n & req1 & req2 & req3 & uri & out & s' & Hrun & Htrace & M1 & M2 & M3 & _ & Hout).
  exists n, req1, req2, req3, uri. rewrite Hrun. cbn [fst snd].
  split; [exact Htrace |].
  split; [exact M1 |]. split; [exact M2 |]. split; [exact M3 |].
  destruct Hout as [(-> & -> & _) | (err & -> & Hn & _)].
  - split; [lia |]. split; [lia |]. split; reflexivity.
  - split; [lia |]. split; [lia |]. split; [discriminate | lia].
Qed.

(** X2. When the second call answers with no text or with the empty
    text, the run throws the plan-analysis error after exactly two
    generation calls, the third stage is never announced, and the
    result callback is not reached. *)
Theorem generateVirtualStaging_plan_failure
    (fp ref : File) (onResult : string -> M B unit) (s : Machine B)
    b64r b64f r1 w1 r2 w2 :
  fileToBase64 B ref = inr b64r ->
  fileToBase64 B fp = inr b64f ->
  let req1 := styleRequest P (encodedPart b64r ref) in
  let req2 := planRequest P (encodedPart b64f fp) in
  models_generateContent B req1 (world s) = (inr r1, w1) ->
  truthy (text r1) = true ->
  models_generateContent B req2 w1 = (inr r2, w2) ->
  text r2 = None \/ text r2 = Some "" ->
  generateVirtualStaging B P fp ref (setLoadingStep B) onResult s =
  (inl (JsError "Could not analyze the floor plan image."),
   {| world := w2;
      trace := trace s ++
        [ EvSetLoadingStep analyzingStyle; EvGenerateContent req1;
          EvSetLoadingStep analyzingPlan; EvGenerateContent req2 ];
      ui := AppState.withLoadingStep analyzingPlan (ui s) |}).
Proof.
  intros Href Hfp req1 req2 H1 T1 H2 Hempty.
  assert (T2 : truthy (text r2) = false)
    by (destruct Hempty as [-> | ->]; reflexivity).
  unfold generateVirtualStaging, fileToGenerativePart, await_fileToBase64,
    ai_models_generateContent, setLoadingStep, ask, emit, updateUi, bind, ret, throw.
  rewrite Href. cbn [world trace ui].
  fold (encodedPart b64r ref). fold req1. rewrite H1.
  cbn [world trace ui]. rewrite T1. cbn [negb].
  rewrite Hfp. cbn [world trace ui].
  fold (encodedPart b64f fp). fold req2. rewrite H2.
  cbn [world trace ui]. rewrite T2. cbn [negb].
  repeat rewrite <- app_assoc. reflexivity.
Qed.

(** X3. The two images are encoded at different moments.  A reference
    image that cannot be read stops the run before any call goes out; a
    floor plan that cannot be read is only found out after the style
    call has been made and answered. *)
Theorem generateVirtualStaging_unreadable_image :
  (forall (fp ref : File) (onResult : string -> M B unit) (s : Machine B) err,
     fileToBase64 B ref = inl err ->
     generateVirtualStaging B P fp ref (setLoadingStep B) onResult s =
     (inl err,
      {| world := world s;
         trace := trace s ++ [EvSetLoadingStep analyzingStyle];
         ui := AppState.withLoadingStep analyzingStyle (ui s) |})) /\
  (forall (fp ref : File) (onResult : string -> M B unit) (s : Machine B)
          b64r r1 w1 err,
     fileToBase64 B ref = inr b64r ->
     let req1 := styleRequest P (encodedPart b64r ref) in
     models_generateContent B req1 (world s) = (inr r1, w1) ->
     truthy (text r1) = true ->
     fileToBase64 B fp = inl err ->
     generateVirtualStaging B P fp ref (setLoadingStep B) onResult s =
     (inl err,
      {| world := w1;
         trace := trace s ++
           [ EvSetLoadingStep analyzingStyle; EvGenerateContent req1;
             EvSetLoadingStep analyzingPlan ];
         ui := AppState.withLoadingStep analyzingPlan (ui s) |})).
Proof.
  split.
  - intros fp ref onResult s err Href.
    unfold generateVirtualStaging, fileToGenerativePart, await_fileToBase64,
      setLoadingStep, emit, updateUi, bind.
    rewrite Href. reflexivity.
  - intros fp ref onResult s b64r r1 w1 err Href req1 H1 T1 Hfp.
    unfold generateVirtualStaging, fileToGenerativePart, await_fileToBase64,
      ai_models_generateContent, setLoadingStep, ask, emit, updateUi, bind, ret, throw.
    rewrite Href. cbn [world trace ui].
    fold (encodedPart b64r ref). fold req1. rewrite H1.
    cbn [world trace ui]. rewrite T1. cbn [negb].
    rewrite Hfp. cbn [world trace ui].
    repeat rewrite <- app_assoc. reflexivity.
Qed.

(** [candidate.content?.parts || []] *)
Definition candidateParts (c : Candidate) : list Part :=
  match content c with
  | Some ct => match parts ct with Some ps => ps | None => [] end
  | None => []
  end.

(** X4. Only the parts of the first candidate of the third response are
    looked at.  A response without candidates fails the run with the
    no-image error, and so does one whose first candidate carries no
    inline data, whatever the candidates after it hold. *)
Theorem generateVirtualStaging_first_candidate_only
    (fp ref : File) (onResult : string -> M B unit) (s : Machine B)
    b64r b64f r1 w1 r2 w2 r3 w3 :
  fileToBase64 B ref = inr b64r ->
  fileToBase64 B fp = inr b64f ->
  let req1 := styleRequest P (encodedPart b64r ref) in
  let req2 := planRequest P (encodedPart b64f fp) in
  let req3 := finalRequest (encodedPart b64f fp)
                (getFinalPromptTemplate P (interpolate (text r1)) (interpolate (text r2))) in
  models_generateContent B req1 (world s) = (inr r1, w1) ->
  truthy (text r1) = true ->
  models_generateContent B req2 w1 = (inr r2, w2) ->
  truthy (text r2) = true ->
  models_generateContent B req3 w2 = (inr r3, w3) ->
  candidates r3 = None \/
  candidates r3 = Some [] \/
  (exists first others,
     candidates r3 = Some (first :: others) /\
     Forall (fun q => inlineData q = None) (candidateParts first)) ->
  fst (generateVirtualStaging B P fp ref (setLoadingStep B) onResult s) =
  inl (JsError "No image was generated. The model may have refused the request.").
Proof.
  intros Href Hfp req1 req2 req3 H1 T1 H2 T2 H3 Hshape.
  rewrite (generateVirtualStaging_reaches_scan B P fp ref onResult s
             b64r b64f r1 w1 r2 w2 r3 w3 Href Hfp H1 T1 H2 T2 H3).
  rewrite extractImage_none; [reflexivity |].
  unfold noInlineData, partsOrEmpty, firstCandidateParts.
  destruct Hshape as [-> | [-> | (first & others & -> & Hnone)]].
  - constructor.
  - constructor.
  - unfold candidateParts in Hnone.
    destruct (content first) as [ct |]; [| constructor].
    destruct (parts ct); [exact Hnone | constructor].
Qed.

(** X14. When the client throws at the first, the second or the third
    call, the run throws that very value, the trace ends with the call
    that threw, no later stage is announced and the result callback is
    not reached. *)
Theorem generateVirtualStaging_transport_failure :
  (forall (fp ref : File) (onResult : string -> M B unit) (s : Machine B)
          b64r err w1,
     fileToBase64 B ref = inr b64r ->
     let req1 := styleRequest P (encodedPart b64r ref) in
     models_generateContent B req1 (world s) = (inl err, w1) ->
     generateVirtualStaging B P fp ref (setLoadingStep B) onResult s =
     (inl err,
      {| world := w1;
         trace := trace s ++
           [ EvSetLoadingStep analyzingStyle; EvGenerateContent req1 ];
         ui := AppState.withLoadingStep analyzingStyle (ui s) |})) /\
  (forall (fp ref : File) (onResult : string -> M B unit) (s : Machine B)
          b64r b64f r1 w1 err w2,
     fileToBase64 B ref = inr b64r ->
     fileToBase64 B fp = inr b64f ->
     let req1 := styleRequest P (encodedPart b64r ref) in
     let req2 := planRequest P (encodedPart b64f fp) in
     models_generateContent B req1 (world s) = (inr r1, w1) ->
     truthy (text r1) = true ->
     models_generateContent B req2 w1 = (inl err, w2) ->
     generateVirtualStaging B P fp ref (setLoadingStep B) onResult s =
     (inl err,
      {| world := w2;
         trace := trace s ++
           [ EvSetLoadingStep analyzingStyle; EvGenerateContent req1;
             EvSetLoadingStep analyzingPlan; EvGenerateContent req2 ];
         ui := AppState.withLoadingStep analyzingPlan (ui s) |})) /\
  (forall (fp ref : File) (onResult : string -> M B unit) (s : Machine B)
          b64r b64f r1 w1 r2 w2 err w3,
     fileToBase64 B ref = inr b64r ->
     fileToBase64 B fp = inr b64f ->
     let req1 := styleRequest P (encodedPart b64r ref) in
     let req2 := planRequest P (encodedPart b64f fp) in
     let req3 := finalRequest (encodedPart b64f fp)
                   (getFinalPromptTemplate P (interpolate (text r1)) (interpolate (text r2))) in
     models_generateContent B req1 (world s) = (inr r1, w1) ->
     truthy (text r1) = true ->
     models_generateContent B req2 w1 = (inr r2, w2) ->
     truthy (text r2) = true ->
     models_generateContent B req3 w2 = (inl err, w3) ->
     generateVirtualStaging B P fp ref (setLoadingStep B) onResult s =
     (inl err,
      {| world := w3;
         trace := trace s ++
           [ EvSetLoadingStep analyzingStyle; EvGenerateContent req1;
             EvSetLoadingStep analyzingPlan; EvGenerateContent req2;
             EvSetLoadingStep generatingImage; EvGenerateContent req3 ];
         ui := AppState.withLoadingStep generatingImage (ui s) |})).
Proof.
  split; [| split].
  - intros fp ref onResult s b64r err w1 Href req1 H1.
    unfold generateVirtualStaging, fileToGenerativePart, await_fileToBase64,
      ai_models_generateContent, setLoadingStep, ask, emit, updateUi, bind, ret, throw.
    rewrite Href. cbn [world trace ui].
    fold (encodedPart b64r ref). fold req1. rewrite H1.
    cbn [world trace ui]. repeat rewrite <- app_assoc. reflexivity.
  - intros fp ref onResult s b64r b64f r1 w1 err w2 Href Hfp req1 req2 H1 T1 H2.
    unfold generateVirtualStaging, fileToGenerativePart, await_fileToBase64,
      ai_models_generateContent, setLoadingStep, ask, emit, updateUi, bind, ret, throw.
    rewrite Href. cbn [world trace ui].
    fold (encodedPart b64r ref). fold req1. rewrite H1.
    cbn [world trace ui]. rewrite T1. cbn [negb].
    rewrite Hfp. cbn [world trace ui].
    fold (encodedPart b64f fp). fold req2. rewrite H2.
    cbn [world trace ui]. repeat rewrite <- app_assoc. reflexivity.
  - intros fp ref onResult s b64r b64f r1 w1 r2 w2 err w3 Href Hfp req1 req2 req3
      H1 T1 H2 T2 H3.
    unfold generateVirtualStaging, fileToGenerativePart, await_fileToBase64,
      ai_models_generateContent, setLoadingStep, ask, emit, updateUi, bind, ret, throw.
    rewrite Href. cbn [world trace ui].
    fold (encodedPart b64r ref). fold req1. rewrite H1.
    cbn [world trace ui]. rewrite T1. cbn [negb].
    rewrite Hfp. cbn [world trace ui].
    fold (encodedPart b64f fp). fold req2. rewrite H2.
    cbn [world trace ui]. rewrite T2. cbn [negb world trace ui].
    fold req3. rewrite H3. cbn [world trace ui].
    repeat rewrite <- app_assoc. reflexivity.
Qed.

End OrchestratorRuns.

(** * Further properties of [handleGenerate] *)

Section GenerateHandler.

Variable B : Backend.
Variable P : Prompts.

(** [const isLoading = loadingStep !== 'idle'] *)
Definition isLoading (st : AppState.t) : bool :=
  match AppState.loadingStep st with
  | idle => false
  | _ => true
  end.

(** The [disabled] attribute of the Generate button:
    [!floorPlanImage || !referenceImage || isLoading]. *)
Definition generateDisabled (st : AppState.t) : bool :=
  match AppState.floorPlanImage st, AppState.referenceImage st with
  | Some _, Some _ => isLoading st
  | _, _ => true
  end.

(** [generatedImage && !isLoading]: the render is on the page. *)
Definition resultShown (st : AppState.t) : bool :=
  match AppState.generatedImage st with
  | Some (String _ _) => negb (isLoading st)
  | _ => false
  end.

(** X5. With both images uploaded, [handleGenerate] never throws, and
    whatever the orchestrator does it leaves the page settled: the
    stage is [idle], the two uploads are kept, the Generate button is
    enabled again, and either an image is there and no error, or an
    error is there and no image. *)
Theorem handleGenerate_settles (fp ref : File) (s : Machine B) :
  AppState.floorPlanImage (ui s) = Some fp ->
  AppState.referenceImage (ui s) = Some ref ->
  exists s',
    handleGenerate B P s = (inr tt, s') /\
    AppState.loadingStep (ui s') = idle /\
    AppState.floorPlanImage (ui s') = Some fp /\
    AppState.referenceImage (ui s') = Some ref /\
    generateDisabled (ui s') = false /\
    ((exists uri, AppState.generatedImage (ui s') = Some uri /\
                  AppState.error (ui s') = None) \/
     (exists message, AppState.generatedImage (ui s') = None /\
                      AppState.error (ui s') = Some message)).
Proof.
  intros Hfp Href.
  rewrite (handleGenerate_run B P fp ref s Hfp Href).
  destruct (generateVirtualStaging_outcomes B P fp ref (runStart B s))
    as (n & req1 & req2 & req3 & uri & out & s1 & Hrun & _ & _ & _ & _
        & [Hfp1 Href1] & Hout).
  unfold tryCatch. rewrite Hrun.
  cbn [runStart ui AppState.floorPlanImage AppState.referenceImage
       AppState.withGeneratedImage AppState.withError] in Hfp1, Href1.
  destruct Hout as [(-> & _ & Hui) | (err & -> & _ & Himg & Herr & _)].
  - exists s1. split; [reflexivity |]. rewrite Hui.
    unfold generateDisabled, isLoading. cbn. rewrite Hfp, Href.
    repeat split. left. exists uri. split; reflexivity.
  - unfold console_error, setError, setLoadingStep, emit, updateUi, bind.
    cbn [world trace ui]. eexists. split; [reflexivity |].
    unfold generateDisabled, isLoading. cbn. rewrite Hfp1, Href1, Hfp, Href.
    repeat split. right. eexists. split; [| reflexivity].
    rewrite Himg. reflexivity.
Qed.

(** X6. A successful run through [handleGenerate], event by event: the
    error and the old image are cleared first; the reference image goes
    into the style request, the floor plan into the plan request and
    into the final request, next to the prompt built from the two
    texts; the image is stored before the stage goes back to [idle];
    and the page ends up showing it. *)
Theorem handleGenerate_success
    (fp ref : File) (s : Machine B) b64r b64f r1 w1 r2 w2 r3 w3 blob :
  AppState.floorPlanImage (ui s) = Some fp ->
  AppState.referenceImage (ui s) = Some ref ->
  fileToBase64 B ref = inr b64r ->
  fileToBase64 B fp = inr b64f ->
  let req1 := styleRequest P (encodedPart b64r ref) in
  let req2 := planRequest P (encodedPart b64f fp) in
  let req3 := finalRequest (encodedPart b64f fp)
                (getFinalPromptTemplate P (interpolate (text r1)) (interpolate (text r2))) in
  models_generateContent B req1 (world s) = (inr r1, w1) ->
  truthy (text r1) = true ->
  models_generateContent B req2 w1 = (inr r2, w2) ->
  truthy (text r2) = true ->
  models_generateContent B req3 w2 = (inr r3, w3) ->
  firstInlineData (partsOrEmpty r3) blob ->
  exists s',
    handleGenerate B P s = (inr tt, s') /\
    world s' = w3 /\
    trace s' = trace s ++
      [ EvSetError None; EvSetGeneratedImage None;
        EvSetLoadingStep analyzingStyle; EvGenerateContent req1;
        EvSetLoadingStep analyzingPlan; EvGenerateContent req2;
        EvSetLoadingStep generatingImage; EvGenerateContent req3;
        EvSetGeneratedImage (Some (dataUri blob)); EvSetLoadingStep idle ] /\
    AppState.generatedImage (ui s') = Some (dataUri blob) /\
    AppState.error (ui s') = None /\
    AppState.loadingStep (ui s') = idle /\
    resultShown (ui s') = true.
Proof.
  intros Hfp Href Hb64r Hb64f req1 req2 req3 H1 T1 H2 T2 H3 Himg.
  rewrite (handleGenerate_run B P fp ref s Hfp Href).
  unfold tryCatch.
  rewrite (generateVirtualStaging_reaches_scan B P fp ref (appOnResult B) (runStart B s)
             b64r b64f r1 w1 r2 w2 r3 w3 Hb64r Hb64f H1 T1 H2 T2 H3).
  rewrite (extractImage_first B (appOnResult B) _ _ Himg), appOnResult_run.
  eexists. split; [reflexivity |].
  cbn [world trace ui runStart threeStages].
  repeat rewrite <- app_assoc.
  repeat split.
Qed.

End GenerateHandler.

(** * Further properties of the prober *)

Section ProberRuns.

Variable B : Backend.

(** X7. What the verdict of a probe means: [supportsImageGeneration] is
    true exactly when the client answered and some part of the first
    candidate of the answer carries inline data.  The probe issues one
    generation call, for the model it was given, and leaves the page
    alone. *)
Theorem testImageGenerationModel_verdict (id : string) (s : Machine B) :
  let called :=
    models_generateContent B (probeRequest id) (snd (Date_now B (world s))) in
  exists r s',
    testImageGenerationModel B id s = (inr r, s') /\
    (supportsImageGeneration r = true <->
     exists response ps p blob,
       fst called = inr response /\
       firstCandidateParts response = Some ps /\
       In p ps /\ inlineData p = Some blob) /\
    trace s' = trace s ++ [EvGenerateContent (probeRequest id)] /\
    model (probeRequest id) = id /\
    ui s' = ui s.
Proof.
  cbv zeta.
  destruct (testImageGenerationModel_returns B id s)
    as (answer & elapsed & s' & Hrun & Hanswer & Htrace & Hui).
  exists (probeResult id answer elapsed), s'.
  split; [exact Hrun |]. rewrite Hanswer.
  split; [| repeat split; assumption].
  destruct answer as [err | response]; cbn [probeResult].
  - cbn. split; [discriminate |].
    intros (response & ps & p & blob & Habs & _). discriminate Habs.
  - split.
    + intros Hyes.
      assert (Himg : hasImageOf response = Some true).
      { destruct (hasImageOf response) as [[|] |]; [reflexivity | |];
          cbn in Hyes; discriminate Hyes. }
      apply hasImageOf_true in Himg.
      destruct Himg as (ps & p & blob & Hps & Hin & Hblob).
      exists response, ps, p, blob. repeat split; assumption.
    + intros (response' & ps & p & blob & [= <-] & Hps & Hin & Hblob).
      assert (Himg : hasImageOf response = Some true).
      { apply hasImageOf_true. exists ps, p, blob. repeat split; assumption. }
      rewrite Himg. reflexivity.
Qed.

(** A result that is the record of a probe of its own model. *)
Definition probedBy (r : ModelTestResult) : Prop :=
  exists w elapsed,
    r = probeResult (modelName r)
          (fst (models_generateContent B (probeRequest (modelName r)) w)) elapsed.

Lemma probeEach_results (validModels : list string) :
  forall (results : list ModelTestResult) (s : Machine B),
  exists probed s',
    probeEach B validModels results s = (inr (results ++ probed), s') /\
    map modelName probed = validModels /\
    Forall probedBy probed /\
    ui s' = ui s.
Proof.
  induction validModels as [| id rest IH]; intros results s.
  - exists [], s. cbn. rewrite app_nil_r. repeat split. constructor.
  - cbn [probeEach].
    unfold bind at 1, console_log, emit. cbn [world trace ui].
    set (s0 := {| world := world s;
                  trace := trace s ++ [EvConsoleLog ("Testing model: " ++ id)];
                  ui := ui s |}).
    destruct (testImageGenerationModel_returns B id s0)
      as (answer & elapsed & s1 & Hrun & Hanswer & _ & Hui).
    unfold bind. rewrite Hrun.
    destruct (IH (results ++ [probeResult id answer elapsed]) s1)
      as (probed & s' & Hloop & Hnames & Hall & Hui').
    exists (probeResult id answer elapsed :: probed), s'.
    rewrite Hloop, <- app_assoc. cbn [app map].
    rewrite probeResult_modelName, Hnames, Hui', Hui.
    repeat split. constructor; [| exact Hall].
    unfold probedBy. rewrite probeResult_modelName.
    eexists _, elapsed. rewrite Hanswer. reflexivity.
Qed.

(** The results of a sweep: one probe record for each valid entry of
    the listing report, in order. *)
Lemma testAll_results (s : Machine B) :
  exists results s',
    testAllModelsForImageGeneration B s = (inr results, s') /\
    map modelName results =
      filter isValidModel (listingReport (fst (models_list B (world s)))) /\
    Forall probedBy results /\
    ui s' = ui s.
Proof.
  destruct (models_list B (world s)) as [answer w] eqn:Hlist. cbn [fst].
  unfold testAllModelsForImageGeneration, bind.
  rewrite (listAvailableModels_run B s answer w Hlist).
  destruct (filter isValidModel (listingReport answer)) as [| id rest] eqn:Hvalid.
  - cbn [length Nat.eqb]. unfold ret. eexists _, _.
    split; [reflexivity |]. repeat split. constructor.
  - cbn [length Nat.eqb].
    destruct (probeEach_results (id :: rest) []
                {| world := w; trace := trace s ++ listingEvents answer; ui := ui s |})
      as (probed & s' & Hloop & Hnames & Hall & Hui).
    exists probed, s'. rewrite Hloop. cbn [app ui] in *.
    repeat split; assumption.
Qed.

Lemma probedBy_timed (r : ModelTestResult) :
  probedBy r -> exists elapsed, responseTime r = Some elapsed.
Proof.
  intros (w & elapsed & ->). exists elapsed.
  destruct (fst (models_generateContent B _ w)) as [err | response]; cbn;
    [reflexivity |].
  destruct (hasImageOf response) as [[|] |]; reflexivity.
Qed.

(** X8. A sweep never throws and never touches the page, whatever the
    client does: it returns one timed result for each valid entry of
    the listing, in order.  Against a client whose every generation
    call throws, all of them are negative and carry an error string. *)
Theorem testAll_never_throws (s : Machine B) :
  exists results s',
    testAllModelsForImageGeneration B s = (inr results, s') /\
    ui s' = ui s /\
    map modelName results =
      filter isValidModel (listingReport (fst (models_list B (world s)))) /\
    Forall (fun r => exists elapsed, responseTime r = Some elapsed) results /\
    ((forall req w, exists err, fst (models_generateContent B req w) = inl err) ->
     Forall (fun r => supportsImageGeneration r = false /\
                      exists message, error r = Some message) results).
Proof.
  destruct (testAll_results s) as (results & s' & Hrun & Hnames & Hall & Hui).
  exists results, s'.
  split; [exact Hrun |]. split; [exact Hui |]. split; [exact Hnames |].
  split.
  - eapply Forall_impl; [| exact Hall]. intros r. apply probedBy_timed.
  - intros Hdown. eapply Forall_impl; [| exact Hall].
    intros r (w & elapsed & Hr).
    destruct (Hdown (probeRequest (modelName r)) w) as (err & Herr).
    rewrite Herr in Hr. rewrite Hr. cbn. split; [reflexivity | eauto].
Qed.

(** X9. [listAvailableModels] never throws, issues no generation call
    and leaves the page alone, and what it returns is never empty: the
    identifiers of the capable models in the order the backend listed
    them, the sentinel when there is none, and the message of the
    failure behind [Error listing models: ] when the listing throws an
    [Error]. *)
Theorem listAvailableModels_report (s : Machine B) :
  exists names s',
    listAvailableModels B s = (inr names, s') /\
    names <> [] /\
    generateCalls (trace s') = generateCalls (trace s) /\
    ui s' = ui s /\
    (forall models w,
       models_list B (world s) = (inr models, w) ->
       (capableNames models <> [] -> names = capableNames models) /\
       (capableNames models = [] ->
        names = ["No models supporting 'generateContent' found for your API key."])) /\
    (forall message w,
       models_list B (world s) = (inl (JsError message), w) ->
       names = [("Error listing models: " ++ message)%string]).
Proof.
  destruct (models_list B (world s)) as [answer w] eqn:Hlist.
  exists (listingReport answer). eexists.
  split; [exact (listAvailableModels_run B s answer w Hlist) |].
  split; [apply listingReport_nonempty |].
  cbn [trace ui]. rewrite generateCalls_app.
  split; [destruct answer; cbn; rewrite app_nil_r; reflexivity |].
  split; [reflexivity |].
  split.
  - intros models w' [= -> _]. cbn [listingReport].
    destruct (capableNames models); split; intros H; congruence.
  - intros message w' [= -> _]. reflexivity.
Qed.

(** A model is among the capable ones exactly when the backend listed
    it with [generateContent] among its methods. *)
Lemma capableNames_In (models : list Model) (id : string) :
  In id (capableNames models) <->
  exists m, In m models /\ name m = id /\
            In "generateContent" (supportedGenerationMethods m).
Proof.
  unfold capableNames. rewrite in_map_iff. split.
  - intros (m & Hname & Hin). apply filter_In in Hin. destruct Hin as [Hin Hcap].
    exists m. repeat split; try assumption.
    unfold isCapable, includes in Hcap. apply existsb_exists in Hcap.
    destruct Hcap as (x & Hx & Heq). apply String.eqb_eq in Heq. subst x. exact Hx.
  - intros (m & Hin & Hname & Hmethod). exists m. split; [exact Hname |].
    apply filter_In. split; [exact Hin |].
    unfold isCapable, includes. apply existsb_exists.
    exists "generateContent". split; [exact Hmethod | apply String.eqb_refl].
Qed.

End ProberRuns.

(** * The model panel of [App] *)

(** [array.find(f)] stops at the first element that passes. *)
Lemma find_first {A : Type} (f : A -> bool) (l : list A) (r : A) :
  find f l = Some r ->
  exists pre post,
    l = pre ++ r :: post /\ Forall (fun x => f x = false) pre /\ f r = true.
Proof.
  induction l as [| x l IH]; cbn; [discriminate |].
  destruct (f x) eqn:Hx.
  - intros [= ->]. exists [], l. repeat split; [constructor | exact Hx].
  - intros Hfind. destruct (IH Hfind) as (pre & post & -> & Hpre & Hr).
    exists (x :: pre), post. repeat split; [constructor; assumption | exact Hr].
Qed.

Lemma existsb_false_Forall {A : Type} (f : A -> bool) (l : list A) :
  existsb f l = false <-> Forall (fun x => f x = false) l.
Proof.
  induction l as [| x l IH]; cbn.
  - split; [constructor | reflexivity].
  - rewrite Bool.orb_false_iff, IH. split.
    + intros [Hx Hl]. constructor; assumption.
    + intros H. inversion H; subst. split; assumption.
Qed.

(** [name || 'N/A'] *)
Definition orNA (modelName : string) : string :=
  match modelName with
  | EmptyString => "N/A"
  | _ => modelName
  end.

(** The note under the results table:
    [results.some(r => r.supportsImageGeneration) &&
     (results.find(r => r.supportsImageGeneration)?.modelName || 'N/A')];
    [None] when the note names no model. *)
Definition bestModelShown (results : list ModelTestResult) : option string :=
  if existsb supportsImageGeneration results
  then Some (match find supportsImageGeneration results with
             | Some r => orNA (modelName r)
             | None => "N/A"
             end)
  else None.

Section ModelPanel.

Variable B : Backend.

(** The [useState] cells of [App] behind the two model buttons. *)
Record ModelPanel : Type :=
  { availableModels : option (list string);
    modelError : option string;
    modelTestResults : option (list ModelTestResult);
    isTestingModels : bool }.

(** The page: the model panel next to everything the service sees. *)
Record Page : Type := { panel : ModelPanel; machine : Machine B }.

Definition PanelM (A : Type) : Type := Page -> (JsThrown + A) * Page.

Definition bindP {A C} (m : PanelM A) (k : A -> PanelM C) : PanelM C :=
  fun pg =>
    match m pg with
    | (inr a, pg') => k a pg'
    | (inl err, pg') => (inl err, pg')
    end.

Definition tryCatchP {A} (body : PanelM A) (handler : JsThrown -> PanelM A)
  : PanelM A :=
  fun pg =>
    match body pg with
    | (inr a, pg') => (inr a, pg')
    | (inl err, pg') => handler err pg'
    end.


(** [await] of a call into the service. *)
Definition awaitService {A} (m : M B A) : PanelM A :=
  fun pg =>
    let '(out, s') := m (machine pg) in
    (out, {| panel := panel pg; machine := s' |}).

Definition updatePanel (f : ModelPanel -> ModelPanel) : PanelM unit :=
  fun pg => (inr tt, {| panel := f (panel pg); machine := machine pg |}).

Definition setAvailableModels (v : option (list string)) : PanelM unit :=
  updatePanel (fun p =>
    {| availableModels := v; modelError := modelError p;
       modelTestResults := modelTestResults p;
       isTestingModels := isTestingModels p |}).

Definition setModelError (v : option string) : PanelM unit :=
  updatePanel (fun p =>
    {| availableModels := availableModels p; modelError := v;
       modelTestResults := modelTestResults p;
       isTestingModels := isTestingModels p |}).



(** The line feed of [models.join('\n')]. *)
Definition lineFeed : string := String (Ascii.ascii_of_nat 10) EmptyString.

(** [m => m.startsWith('Error')] *)
Definition looksLikeError (m : string) : bool := startsWith m "Error".

Definition handleCheckModels : PanelM unit :=
  bindP (setAvailableModels None) (fun _ =>
  bindP (setModelError None) (fun _ =>
  tryCatchP
    (bindP (awaitService (listAvailableModels B)) (fun models =>
     if existsb looksLikeError models
     then bindP (setModelError (Some (String.concat lineFeed models))) (fun _ =>
          setAvailableModels None)
     else setAvailableModels (Some models)))
    (fun err =>
       setModelError (Some (messageOr "An unknown error occurred." err))))).



End ModelPanel.

Arguments panel {B} _.
Arguments machine {B} _.
Arguments Build_Page {B} _ _.

Section ModelPanelRuns.

Variable B : Backend.

(** [handleCheckModels], run: the panel is reset, the listing is asked
    for, and its report lands in one of the two cells. *)
Lemma handleCheckModels_run (pg : Page B) answer w :
  models_list B (world (machine pg)) = (answer, w) ->
  let report := listingReport answer in
  handleCheckModels B pg =
  (inr tt,
   {| panel :=
        {| availableModels :=
             if existsb looksLikeError report then None else Some report;
           modelError :=
             if existsb looksLikeError report
             then Some (String.concat lineFeed report) else None;
           modelTestResults := modelTestResults (panel pg);
           isTestingModels := isTestingModels (panel pg) |};
      machine :=
        {| world := w;
           trace := trace (machine pg) ++ listingEvents answer;
           ui := ui (machine pg) |} |}).
Proof.
  intros Hlist report.
  unfold handleCheckModels, tryCatchP, bindP, awaitService, setAvailableModels,
    setModelError, updatePanel.
  cbn [panel machine].
  rewrite (listAvailableModels_run B (machine pg) answer w Hlist).
  fold report. destruct (existsb looksLikeError report); reflexivity.
Qed.


(** X11. What the List button shows, by what the backend did.  A
    listing that throws an [Error] shows its message as an error.  A
    listing with capable models, none named like an error, shows them
    in backend order.  A listing without a capable model shows the
    sentinel sentence in the list of available models, not as an
    error.  And one capable model whose identifier starts with [Error]
    turns the whole listing into an error text, one identifier per
    line. *)
Theorem handleCheckModels_cases (pg : Page B) :
  (forall message w,
     models_list B (world (machine pg)) = (inl (JsError message), w) ->
     let p := panel (snd (handleCheckModels B pg)) in
     modelError p = Some ("Error listing models: " ++ message)%string /\
     availableModels p = None) /\
  (forall models w,
     models_list B (world (machine pg)) = (inr models, w) ->
     capableNames models <> [] ->
     Forall (fun m => startsWith m "Error" = false) (capableNames models) ->
     let p := panel (snd (handleCheckModels B pg)) in
     availableModels p = Some (capableNames models) /\ modelError p = None) /\
  (forall models w,
     models_list B (world (machine pg)) = (inr models, w) ->
     capableNames models = [] ->
     let p := panel (snd (handleCheckModels B pg)) in
     availableModels p =
       Some ["No models supporting 'generateContent' found for your API key."] /\
     modelError p = None) /\
  (forall models w id,
     models_list B (world (machine pg)) = (inr models, w) ->
     In id (capableNames models) ->
     startsWith id "Error" = true ->
     let p := panel (snd (handleCheckModels B pg)) in
     modelError p = Some (String.concat lineFeed (capableNames models)) /\
     availableModels p = None).
Proof.
  split; [| split; [| split]].
  - intros message w Hlist p. unfold p.
    rewrite (handleCheckModels_run pg _ w Hlist). split; reflexivity.
  - intros models w Hlist Hsome Hclean p. unfold p.
    rewrite (handleCheckModels_run pg _ w Hlist).
    cbn [snd panel availableModels modelError listingReport].
    destruct (capableNames models) as [| id rest] eqn:Hnames; [congruence |].
    apply existsb_false_Forall in Hclean. unfold looksLikeError.
    rewrite Hclean. split; reflexivity.
  - intros models w Hlist Hnone p. unfold p.
    rewrite (handleCheckModels_run pg _ w Hlist).
    cbn [snd panel availableModels modelError listingReport].
    rewrite Hnone. split; reflexivity.
  - intros models w id Hlist Hin Hid p. unfold p.
    rewrite (handleCheckModels_run pg _ w Hlist).
    cbn [snd panel availableModels modelError listingReport].
    destruct (capableNames models) as [| id0 rest] eqn:Hnames; [destruct Hin |].
    assert (Hsome : existsb looksLikeError (id0 :: rest) = true).
    { apply existsb_exists. exists id. split; assumption. }
    rewrite Hsome. split; reflexivity.
Qed.


(** X13. The model the note under the table calls the best one is the
    first result of the sweep, in listing order, whose probe found an
    image: every result before it is negative, it is a capable model of
    the listing that passed the prefix filter, and it is printed as
    [N/A] when its identifier is empty.  The note names no model
    exactly when every probe was negative. *)
Theorem bestModel_is_first_positive (s : Machine B) models w :
  models_list B (world s) = (inr models, w) ->
  exists results s',
    testAllModelsForImageGeneration B s = (inr results, s') /\
    (bestModelShown results = None <->
     Forall (fun r => supportsImageGeneration r = false) results) /\
    (forall shown,
       bestModelShown results = Some shown ->
       exists before best after,
         results = before ++ best :: after /\
         Forall (fun r => supportsImageGeneration r = false) before /\
         supportsImageGeneration best = true /\
         shown = orNA (modelName best) /\
         In (modelName best) (capableNames models) /\
         isValidModel (modelName best) = true).
Proof.
  intros Hlist.
  destruct (testAll_results B s) as (results & s' & Hrun & Hnames & _ & _).
  rewrite Hlist in Hnames. cbn [fst] in Hnames.
  rewrite valid_listingReport_models in Hnames.
  exists results, s'. split; [exact Hrun |].
  unfold bestModelShown. split.
  - destruct (existsb supportsImageGeneration results) eqn:Hsome.
    + split; [discriminate |]. intros Hall.
      apply existsb_false_Forall in Hall. congruence.
    + split; [| reflexivity]. intros _. apply existsb_false_Forall. exact Hsome.
  - intros shown.
    destruct (existsb supportsImageGeneration results) eqn:Hsome; [| discriminate].
    apply existsb_exists in Hsome. destruct Hsome as (r0 & Hin0 & Hr0).
    destruct (find supportsImageGeneration results) as [best |] eqn:Hfind.
    2:{ exfalso. apply (find_none _ _ Hfind) in Hin0. congruence. }
    intros [= <-].
    destruct (find_first _ _ _ Hfind) as (before & after & Hsplit & Hbefore & Hbest).
    exists before, best, after.
    assert (Hvalid : In (modelName best) (filter isValidModel (capableNames models))).
    { rewrite <- Hnames, Hsplit, map_app. apply in_or_app. right. left. reflexivity. }
    apply filter_In in Hvalid. destruct Hvalid as [Hcap Hvalid].
    repeat split; assumption.
Qed.

End ModelPanelRuns.

(** * More doubles and concrete runs *)

(** A second call that is answered without text. *)
Definition planSilentScript (req : GenerateContentParameters) (n : nat)
  : JsThrown + GenerateContentResponse :=
  match n with
  | 0 => inr (textResponse "minimalist, oak floors")
  | _ => inr {| text := None; candidates := None |}
  end.

Definition planSilentBackend : Backend := scripted planSilentScript (inr threeModels).

Lemma generateVirtualStaging_plan_failure_witness :
  let run := generateVirtualStaging planSilentBackend demoPrompts planFile referenceFile
               (setLoadingStep planSilentBackend) (appOnResult planSilentBackend)
               (start planSilentBackend 0 bothImages) in
  fst run = inl (JsError "Could not analyze the floor plan image.") /\
  length (generateCalls (trace (snd run))) = 2 /\
  stageCalls (trace (snd run)) = [analyzingStyle; analyzingPlan].
Proof.
  cbv zeta.
  rewrite (generateVirtualStaging_plan_failure planSilentBackend demoPrompts
             planFile referenceFile (appOnResult planSilentBackend)
             (start planSilentBackend 0 bothImages)
             "b64(room)" "b64(plan)" (textResponse "minimalist, oak floors") 1
             {| text := None; candidates := None |} 2
             eq_refl eq_refl eq_refl eq_refl eq_refl (or_introl eq_refl)).
  repeat split.
Defined.

(** A backend whose encoder rejects the file with the given content. *)
Definition unreadable (bad : string) (inner : Backend) : Backend :=
  {| World := World inner;
     models_generateContent := models_generateContent inner;
     models_list := models_list inner;
     Date_now := Date_now inner;
     fileToBase64 := fun f =>
       if String.eqb (payload f) bad
       then inl (JsError "NotReadableError")
       else fileToBase64 inner f |}.

Definition noReference : Backend := unreadable "room" stagingBackend.
Definition noPlan : Backend := unreadable "plan" stagingBackend.

Lemma generateVirtualStaging_unreadable_image_witness :
  (let run := generateVirtualStaging noReference demoPrompts planFile referenceFile
                (setLoadingStep noReference) (appOnResult noReference)
                (start noReference 0 bothImages) in
   fst run = inl (JsError "NotReadableError") /\
   length (generateCalls (trace (snd run))) = 0) /\
  (let run := generateVirtualStaging noPlan demoPrompts planFile referenceFile
                (setLoadingStep noPlan) (appOnResult noPlan)
                (start noPlan 0 bothImages) in
   fst run = inl (JsError "NotReadableError") /\
   length (generateCalls (trace (snd run))) = 1).
Proof.
  cbv zeta. split.
  - rewrite (proj1 (generateVirtualStaging_unreadable_image noReference demoPrompts)
               planFile referenceFile (appOnResult noReference)
               (start noReference 0 bothImages) (JsError "NotReadableError") eq_refl).
    split; reflexivity.
  - rewrite (proj2 (generateVirtualStaging_unreadable_image noPlan demoPrompts)
               planFile referenceFile (appOnResult noPlan)
               (start noPlan 0 bothImages) "b64(room)"
               (textResponse "minimalist, oak floors") 1 (JsError "NotReadableError")
               eq_refl eq_refl eq_refl eq_refl).
    split; reflexivity.
Defined.

(** A third response whose image sits in the second candidate. *)
Definition secondCandidateResponse : GenerateContentResponse :=
  {| text := Some "Two drafts.";
     candidates := Some
       [ {| content := Some {| parts := Some [textPart "Two drafts."] |} |};
         {| content := Some
              {| parts := Some [ {| partText := None; inlineData := Some pngBlob |} ] |} |} ] |}.

Definition secondCandidateScript (req : GenerateContentParameters) (n : nat)
  : JsThrown + GenerateContentResponse :=
  match n with
  | 0 => inr (textResponse "minimalist, oak floors")
  | 1 => inr (textResponse "2-bedroom, L-shaped")
  | _ => inr secondCandidateResponse
  end.

Definition secondCandidateBackend : Backend :=
  scripted secondCandidateScript (inr threeModels).

Lemma generateVirtualStaging_first_candidate_only_witness :
  fst (generateVirtualStaging secondCandidateBackend demoPrompts planFile referenceFile
         (setLoadingStep secondCandidateBackend) (appOnResult secondCandidateBackend)
         (start secondCandidateBackend 0 bothImages)) =
  inl (JsError "No image was generated. The model may have refused the request.").
Proof.
  eapply (generateVirtualStaging_first_candidate_only secondCandidateBackend demoPrompts
            planFile referenceFile (appOnResult secondCandidateBackend)
            (start secondCandidateBackend 0 bothImages));
    [reflexivity | reflexivity | reflexivity | reflexivity | reflexivity
     | reflexivity | reflexivity |].
  right. right. eexists _, _. split; [reflexivity |].
  repeat constructor.
Defined.

(** A third call that dies on the wire. *)
Definition hangUpScript (req : GenerateContentParameters) (n : nat)
  : JsThrown + GenerateContentResponse :=
  match n with
  | 0 => inr (textResponse "minimalist, oak floors")
  | 1 => inr (textResponse "2-bedroom, L-shaped")
  | _ => inl (JsOther "socket hang up")
  end.

Definition hangUpBackend : Backend := scripted hangUpScript (inr threeModels).

Lemma generateVirtualStaging_transport_failure_witness :
  (let run := generateVirtualStaging deniedBackend demoPrompts planFile referenceFile
                (setLoadingStep deniedBackend) (appOnResult deniedBackend)
                (start deniedBackend 0 bothImages) in
   fst run = inl (JsError "403 permission denied") /\
   length (generateCalls (trace (snd run))) = 1) /\
  (let run := generateVirtualStaging quotaBackend demoPrompts planFile referenceFile
                (setLoadingStep quotaBackend) (appOnResult quotaBackend)
                (start quotaBackend 0 bothImages) in
   fst run = inl (JsError "429 quota exceeded") /\
   length (generateCalls (trace (snd run))) = 2) /\
  (let run := generateVirtualStaging hangUpBackend demoPrompts planFile referenceFile
                (setLoadingStep hangUpBackend) (appOnResult hangUpBackend)
                (start hangUpBackend 0 bothImages) in
   fst run = inl (JsOther "socket hang up") /\
   length (generateCalls (trace (snd run))) = 3).
Proof.
  cbv zeta. split; [| split].
  - rewrite (proj1 (generateVirtualStaging_transport_failure deniedBackend demoPrompts)
               planFile referenceFile (appOnResult deniedBackend)
               (start deniedBackend 0 bothImages) "b64(room)"
               (JsError "403 permission denied") 1 eq_refl eq_refl).
    split; reflexivity.
  - rewrite (proj1 (proj2 (generateVirtualStaging_transport_failure quotaBackend demoPrompts))
               planFile referenceFile (appOnResult quotaBackend)
               (start quotaBackend 0 bothImages) "b64(room)" "b64(plan)"
               (textResponse "minimalist, oak floors") 1
               (JsError "429 quota exceeded") 2
               eq_refl eq_refl eq_refl eq_refl eq_refl).
    split; reflexivity.
  - rewrite (proj2 (proj2 (generateVirtualStaging_transport_failure hangUpBackend demoPrompts))
               planFile referenceFile (appOnResult hangUpBackend)
               (start hangUpBackend 0 bothImages) "b64(room)" "b64(plan)"
               (textResponse "minimalist, oak floors") 1
               (textResponse "2-bedroom, L-shaped") 2
               (JsOther "socket hang up") 3
               eq_refl eq_refl eq_refl eq_refl eq_refl eq_refl eq_refl).
    split; reflexivity.
Defined.

Definition staleError : AppState.t :=
  {| AppState.floorPlanImage := Some planFile;
     AppState.referenceImage := Some referenceFile;
     AppState.generatedImage := Some "data:image/png;base64,b2xk";
     AppState.loadingStep := idle;
     AppState.error := Some "429 quota exceeded" |}.

Lemma handleGenerate_settles_witness :
  let run := handleGenerate hangUpBackend demoPrompts (start hangUpBackend 0 staleError) in
  fst run = inr tt /\
  AppState.loadingStep (ui (snd run)) = idle /\
  generateDisabled (ui (snd run)) = false /\
  AppState.generatedImage (ui (snd run)) = None /\
  AppState.error (ui (snd run)) = Some "An unknown error occurred.".
Proof.
  cbv zeta.
  destruct (handleGenerate_settles hangUpBackend demoPrompts planFile referenceFile
              (start hangUpBackend 0 staleError) eq_refl eq_refl)
    as (s' & Hrun & Hstage & _ & _ & Hbutton & _).
  rewrite Hrun in *. cbn [fst snd]. rewrite Hstage, Hbutton.
  assert (Hsame : s' = snd (handleGenerate hangUpBackend demoPrompts
                             (start hangUpBackend 0 staleError)))
    by (rewrite Hrun; reflexivity).
  rewrite Hsame. repeat split.
Defined.

Lemma handleGenerate_success_witness :
  let run := handleGenerate stagingBackend demoPrompts (start stagingBackend 0 staleError) in
  fst run = inr tt /\
  AppState.generatedImage (ui (snd run)) = Some "data:image/png;base64,iVBORw0KGgo=" /\
  AppState.error (ui (snd run)) = None /\
  AppState.loadingStep (ui (snd run)) = idle /\
  stageCalls (trace (snd run)) = [analyzingStyle; analyzingPlan; generatingImage; idle].
Proof.
  cbv zeta.
  edestruct (handleGenerate_success stagingBackend demoPrompts planFile referenceFile
               (start stagingBackend 0 staleError))
    as (s' & Hrun & _ & Htrace & Himage & Herror & Hstage & _);
    [reflexivity | reflexivity | reflexivity | reflexivity | reflexivity
     | reflexivity | reflexivity | reflexivity | reflexivity | |].
  - exists [textPart "Here is your render."],
      {| partText := None; inlineData := Some pngBlob |}, [].
    split; [reflexivity | split; [repeat constructor | reflexivity]].
  - rewrite Hrun. cbn [fst snd]. rewrite Htrace, Himage, Herror, Hstage.
    repeat split.
Defined.

Lemma testAll_never_throws_witness :
  exists results s',
    testAllModelsForImageGeneration deniedBackend (start deniedBackend 0 idlePage)
      = (inr results, s') /\
    map modelName results = ["models/A"; "models/C"] /\
    Forall (fun r => supportsImageGeneration r = false /\
                     exists message, error r = Some message) results.
Proof.
  destruct (testAll_never_throws deniedBackend (start deniedBackend 0 idlePage))
    as (results & s' & Hrun & _ & Hnames & _ & Hdown).
  exists results, s'.
  split; [exact Hrun |]. split; [exact Hnames |].
  apply Hdown. intros req w. exists (JsError "403 permission denied"). reflexivity.
Defined.

Definition emptyPanel : ModelPanel :=
  {| availableModels := None;
     modelError := None;
     modelTestResults := None;
     isTestingModels := false |}.

Definition freshPage (B : Backend) (w : World B) : Page B :=
  {| panel := emptyPanel; machine := start B w idlePage |}.

Definition badKeyBackend : Backend :=
  scripted capabilityScript (inl (JsError "401 API key not valid")).

Definition embeddingOnlyBackend : Backend :=
  scripted capabilityScript
    (inr [ {| name := "models/B"; supportedGenerationMethods := ["embedContent"] |} ]).

Lemma handleCheckModels_cases_witness :
  modelError (panel (snd (handleCheckModels badKeyBackend (freshPage badKeyBackend 0))))
    = Some "Error listing models: 401 API key not valid" /\
  availableModels (panel (snd (handleCheckModels probingBackend (freshPage probingBackend 0))))
    = Some ["models/A"; "models/C"] /\
  availableModels
    (panel (snd (handleCheckModels embeddingOnlyBackend (freshPage embeddingOnlyBackend 0))))
    = Some ["No models supporting 'generateContent' found for your API key."] /\
  modelError
    (panel (snd (handleCheckModels errorNamedBackend (freshPage errorNamedBackend 0))))
    = Some (String.concat lineFeed ["Error-correcting-v1"; "models/C"]).
Proof.
  split; [| split; [| split]].
  - exact (proj1 (proj1 (handleCheckModels_cases badKeyBackend (freshPage badKeyBackend 0))
                    "401 API key not valid" 0 eq_refl)).
  - refine (proj1 (proj1 (proj2 (handleCheckModels_cases probingBackend
                                   (freshPage probingBackend 0)))
                     threeModels 0 eq_refl _ _)).
    + discriminate.
    + repeat constructor.
  - exact (proj1 (proj1 (proj2 (proj2 (handleCheckModels_cases embeddingOnlyBackend
                                         (freshPage embeddingOnlyBackend 0))))
                    _ 0 eq_refl eq_refl)).
  - refine (proj1 (proj2 (proj2 (proj2 (handleCheckModels_cases errorNamedBackend
                                          (freshPage errorNamedBackend 0))))
                     errorNamedModels 0 "Error-correcting-v1" eq_refl _ eq_refl)).
    left. reflexivity.
Defined.

Lemma bestModel_is_first_positive_witness :
  exists results s',
    testAllModelsForImageGeneration probingBackend (start probingBackend 0 idlePage)
      = (inr results, s') /\
    (bestModelShown results = None <->
     Forall (fun r => supportsImageGeneration r = false) results) /\
    (forall shown,
       bestModelShown results = Some shown ->
       exists before best after,
         results = before ++ best :: after /\
         Forall (fun r => supportsImageGeneration r = false) before /\
         supportsImageGeneration best = true /\
         shown = orNA (modelName best) /\
         In (modelName best) (capableNames threeModels) /\
         isValidModel (modelName best) = true).
Proof.
  exact (bestModel_is_first_positive probingBackend (start probingBackend 0 idlePage)
           threeModels 0 eq_refl).
Defined.

(** The sweep of the second scenario names [models/A]. *)
Example bestModel_of_scenario :
  option_map bestModelShown
    (match fst (testAllModelsForImageGeneration probingBackend
                  (start probingBackend 0 idlePage)) with
     | inr results => Some results
     | inl _ => None
     end) = Some (Some "models/A").
Proof. vm_compute. reflexivity. Qed.

Lemma listAvailableModels_report_witness :
  exists names s',
    listAvailableModels probingBackend (start probingBackend 0 idlePage) = (inr names, s') /\
    names = ["models/A"; "models/C"].
Proof.
  destruct (listAvailableModels_report probingBackend (start probingBackend 0 idlePage))
    as (names & s' & Hrun & _ & _ & _ & Hlisted & _).
  exists names, s'. split; [exact Hrun |].
  apply (proj1 (Hlisted threeModels 0 eq_refl)). discriminate.
Defined.
